(** * fastapi_ecommerce: categories, products, reviews and the product rating

    A shallow embedding of the request handlers of [app/routers/categories.py],
    [app/routers/products.py] and [app/routers/reviews.py] over an explicit
    model of the relational store, and the properties of the category tree
    validator, the review lifecycle and the rating aggregate.

    Modelling conventions.
    - A table is the list of its rows; [select(..).where(..)] is a filter
      over it, [.first()] the head of the result, an [update(..)
      .where(..).values(..)] a map over the rows.  The order of the list is
      one of the orders in which the store may return the rows: no query of
      the handlers has an ORDER BY, and an UPDATE may move a row.  What is
      stated about a table or a listing after an update is therefore stated
      up to permutation.
    - A handler is a function from the store to an outcome and the store it
      leaves behind.  Every write of the handlers is followed by its
      [commit()] with no fallible step in between, so a write is applied to
      the store where it is issued.
    - Python exceptions are values of [exn]; an [HTTPException] carries its
      status code and detail as the source writes them.
    - Numbers are kept as the rationals they denote ([Q], in lowest terms so
      that equal numbers are equal terms), with the rounding of the store
      written out: [avg] returns PostgreSQL's [numeric] quotient, rounded at
      the scale that its division selects, and the [rating] column keeps the
      nearest double.
    - Ids are the values of the 32-bit [Integer] columns.  A request
      parameter outside that range is refused by the driver when it is bound
      to a query ([DBAPIError]) and is not modelled: what is stated about a
      request's id assumes it is in range ([int4]).
    - Keys come from the sequences of the [autoincrement] columns.  Foreign
      keys are not checked again by the store: wherever a handler writes a
      reference, it has just looked the referenced row up, or the reference
      is the authenticated user. *)

From Stdlib Require Import ZArith QArith Qreduction Qabs String.
From stdpp Require Import base decidable option list strings.

Local Open Scope string_scope.
Local Open Scope Z_scope.

(** ** Python outcomes *)

Inductive exn : Type :=
  | HTTPException (status_code : Z) (detail : string)
  | AttributeError (msg : string)
  | TypeError (msg : string)
  | IntegrityError (constraint : string)
  | InvalidRequestError (msg : string).

Inductive outcome (A : Type) : Type :=
  | Ok (a : A)
  | Raise (e : exn).
Arguments Ok {A} a.
Arguments Raise {A} e.

(** [fastapi.status] *)
Definition HTTP_400_BAD_REQUEST : Z := 400.
Definition HTTP_403_FORBIDDEN : Z := 403.
Definition HTTP_404_NOT_FOUND : Z := 404.

(** The character that the source escapes inside a string literal. *)
Definition dquote : string := String (Ascii.ascii_of_nat 34) EmptyString.

(** ** Rows *)

Module Category.
(** [class Category(Base)], [app/models/categories.py]. *)
Record t : Type := mk {
  id : Z;
  parent_id : option Z;
  name : string;
  is_active : bool
}.

(** [.values(is_active=v)] *)
Definition set_is_active (v : bool) (c : t) : t :=
  mk (id c) (parent_id c) (name c) v.
End Category.

Module Review.
(** [class Review(Base)], [app/models/reviews.py]. *)
Record t : Type := mk {
  id : Z;
  user_id : Z;
  product_id : Z;
  comment : option string;
  comment_date : Z;
  grade : Z;
  is_active : bool
}.

(** [CheckConstraint("grade >= 1 AND grade <= 5", name="check_grade_comment")] *)
Definition check_grade_comment (g : Z) : bool := (1 <=? g) && (g <=? 5).

(** [.values(is_active=v)] *)
Definition set_is_active (v : bool) (r : t) : t :=
  mk (id r) (user_id r) (product_id r) (comment r) (comment_date r) (grade r) v.
End Review.

Module Product.
(** Modelled from the spec: the Product model ([app/models/products.py]) is
    not among the sources; the columns are those of section 3 of the
    specification, which are also the ones the handlers read and write.
    [rating] is a float column: its values are doubles, kept as the rationals
    they denote. *)
Record t : Type := mk {
  id : Z;
  category_id : Z;
  seller_id : Z;
  price : Q;
  stock : Z;
  rating : Q;
  is_active : bool
}.

(** [.values(is_active=v)] *)
Definition set_is_active (v : bool) (p : t) : t :=
  mk (id p) (category_id p) (seller_id p) (price p) (stock p) (rating p) v.

(** [product.rating = v] *)
Definition set_rating (v : Q) (p : t) : t :=
  mk (id p) (category_id p) (seller_id p) (price p) (stock p) v (is_active p).
End Product.

Module User.
(** Modelled from the spec: the User model is not among the sources; the
    handlers read [id] and [role]. *)
Record t : Type := mk {
  id : Z;
  role : string
}.
End User.

(** ** Request bodies *)

(** A pydantic field that was left out of the request ([Unset]) or was sent
    ([Given]); [model_dump(exclude_unset=True)] keeps the second kind only. *)
Inductive field (A : Type) : Type :=
  | Unset
  | Given (a : A).
Arguments Unset {A}.
Arguments Given {A} a.

Module CategoryCreate.
(** Modelled from the spec: the schema [CategoryCreate] ([app/schemas.py])
    is not among the sources; section 6 gives a required name and an
    optional parent_id, whose default is [None]. *)
Record t : Type := mk {
  name : string;
  parent_id_field : field (option Z)
}.

Definition parent_id (c : t) : option Z :=
  match parent_id_field c with
  | Unset => None
  | Given v => v
  end.
End CategoryCreate.

Module ReviewCreate.
(** Modelled from the spec: the schema [ReviewCreate] is not among the
    sources; section 6 gives product_id, grade and comment. *)
Record t : Type := mk {
  product_id : Z;
  comment : option string;
  grade : Z
}.
End ReviewCreate.

(** ** The store *)

Record DB : Type := mkDB {
  categories : list Category.t;
  products : list Product.t;
  reviews : list Review.t;
  (* the sequences behind the [autoincrement] primary keys *)
  categories_id_seq : Z;
  reviews_id_seq : Z
}.

Definition set_categories (l : list Category.t) (db : DB) : DB :=
  mkDB l (products db) (reviews db) (categories_id_seq db) (reviews_id_seq db).
Definition set_products (l : list Product.t) (db : DB) : DB :=
  mkDB (categories db) l (reviews db) (categories_id_seq db) (reviews_id_seq db).
Definition set_reviews (l : list Review.t) (db : DB) : DB :=
  mkDB (categories db) (products db) l (categories_id_seq db) (reviews_id_seq db).

(** A handler: the outcome and the committed store. *)
Definition M (A : Type) : Type := DB -> outcome A * DB.

Definition ret {A} (a : A) : M A := fun db => (Ok a, db).
Definition raise {A} (e : exn) : M A := fun db => (Raise e, db).
Definition bind {A B} (m : M A) (k : A -> M B) : M B :=
  fun db =>
    match m db with
    | (Ok a, db') => k a db'
    | (Raise e, db') => (Raise e, db')
    end.
Definition get_db : M DB := fun db => (Ok db, db).
Definition modify_db (f : DB -> DB) : M unit := fun db => (Ok tt, f db).

Declare Scope handler_scope.
Delimit Scope handler_scope with handler.
Notation "x <- m ;; k" := (bind m (fun x => k))
  (at level 100, m at next level, right associativity) : handler_scope.
Notation "m ;; k" := (bind m (fun _ => k))
  (at level 100, right associativity) : handler_scope.
Local Open Scope handler_scope.

(** ** Queries *)

Section Query.
Context {A : Type}.

(** [select(Model).where(P)] evaluated on a table. *)
Definition select_where (P : A -> bool) (tbl : list A) : list A :=
  List.filter P tbl.

(** [result.first()] *)
Definition first (rows : list A) : option A := head rows.

(** [update(Model).where(P).values(..)], the assignment given as [f]. *)
Definition update_where (P : A -> bool) (f : A -> A) (tbl : list A) : list A :=
  List.map (fun r => if P r then f r else r) tbl.
End Query.

(** [if not x: raise e], [x] then bound to the row that was found. *)
Definition require {A} (o : option A) (e : exn) : M A :=
  match o with
  | Some a => ret a
  | None => raise e
  end.

(** [if cond: raise e] *)
Definition raise_if (cond : bool) (e : exn) : M unit :=
  if cond then raise e else ret tt.

(** A fallible step that does not touch the store. *)
Definition lift {A} (o : outcome A) : M A := fun db => (o, db).

(** ** [app/routers/categories.py] *)

(** [db.add(db_category); await db.commit()]: the row gets its key from the
    sequence and [is_active] from the column default. *)
Definition add_category (category : CategoryCreate.t) : M Z :=
  fun db =>
    let new_id := categories_id_seq db in
    let row := Category.mk new_id (CategoryCreate.parent_id category)
                 (CategoryCreate.name category) true in
    (Ok new_id,
     mkDB (categories db ++ [row]) (products db) (reviews db)
          (new_id + 1) (reviews_id_seq db)).

(** [await db.refresh(db_category)]: the row is read again by its key. *)
Definition refresh_category (category_id : Z) : M Category.t :=
  db <- get_db ;;
  require (first (select_where (fun c => Category.id c =? category_id) (categories db)))
          (InvalidRequestError "Could not refresh instance").

Definition create_category (category : CategoryCreate.t) : M Category.t :=
  db <- get_db ;;
  match CategoryCreate.parent_id category with
  | Some parent_id =>
      let result := select_where (fun c => Category.id c =? parent_id) (categories db) in
      _ <- require (first result)
             (HTTPException HTTP_400_BAD_REQUEST "Parent category not found") ;;
      ret tt
  | None => ret tt
  end ;;
  db_category <- add_category category ;;
  refresh_category db_category.

(** [category.model_dump(exclude_unset=True)] used as the [values] of an
    update: the name, and the parent when the request carried one. *)
Definition update_data (category : CategoryCreate.t) (c : Category.t) : Category.t :=
  Category.mk (Category.id c)
    (match CategoryCreate.parent_id_field category with
     | Unset => Category.parent_id c
     | Given v => v
     end)
    (CategoryCreate.name category)
    (Category.is_active c).

Definition update_category (category_id : Z) (category : CategoryCreate.t) : M Category.t :=
  db <- get_db ;;
  let result := select_where (fun c => Category.id c =? category_id) (categories db) in
  db_category <- require (first result)
                   (HTTPException HTTP_400_BAD_REQUEST "Category not found") ;;
  match CategoryCreate.parent_id category with
  | Some parent_id =>
      let parent_result :=
        select_where (fun c => Category.id c =? parent_id) (categories db) in
      parent <- require (first parent_result)
                  (HTTPException HTTP_400_BAD_REQUEST "Parent category not found") ;;
      raise_if (Category.id parent =? category_id)
        (HTTPException HTTP_400_BAD_REQUEST "Category cannot be its own parent")
  | None => ret tt
  end ;;
  modify_db (fun db =>
    set_categories
      (update_where (fun c => Category.id c =? category_id) (update_data category)
         (categories db)) db) ;;
  refresh_category (Category.id db_category).

(** [await db.scalar(stmt)]: the first column of the first row, or [None]. *)
Definition scalar {A} (column : list A) : option A := first column.

(** [result.first()] where [result] is what [db.scalar] returned, an [int] or
    [None]: neither has an attribute [first]. *)
Definition scalar_value_first (result : option Z) : M (option Z) :=
  raise (AttributeError
    (match result with
     | Some _ => "'int' object has no attribute 'first'"
     | None => "'NoneType' object has no attribute 'first'"
     end)).

Definition delete_category (category_id : Z) : M (list (string * string)) :=
  db <- get_db ;;
  let result :=
    scalar (List.map Category.id
      (select_where (fun c => (Category.id c =? category_id) && Category.is_active c)
         (categories db))) in
  category <- scalar_value_first result ;;
  match category with
  | None => raise (HTTPException 400 "Category not found")
  | Some _ => ret tt
  end ;;
  modify_db (fun db =>
    set_categories
      (update_where (fun c => Category.id c =? category_id) (Category.set_is_active false)
         (categories db)) db) ;;
  ret [("status", "success"); ("message", "Category marked as inactive")].

(** ** [app/routers/products.py] *)

(** [Column.between(cleft, cright)]: both bounds are required positional
    arguments; called with fewer, Python raises [TypeError] while the
    statement is being built. *)
Definition between (args : list Q) : outcome (Q -> bool) :=
  match args with
  | [] =>
      Raise (TypeError
        "ColumnOperators.between() missing 2 required positional arguments: 'cleft' and 'cright'")
  | [_] =>
      Raise (TypeError
        "ColumnOperators.between() missing 1 required positional argument: 'cright'")
  | cleft :: cright :: _ =>
      Ok (fun x => Qle_bool cleft x && Qle_bool x cright)
  end.

(** [await db.refresh(product)] *)
Definition refresh_product (product_id : Z) : M Product.t :=
  db <- get_db ;;
  require (first (select_where (fun p => Product.id p =? product_id) (products db)))
          (InvalidRequestError "Could not refresh instance").

Definition delete_product (product_id : Z) (current_user : User.t) : M Product.t :=
  db <- get_db ;;
  price_between <- lift (between []) ;;
  let rs_product :=
    select_where
      (fun p => (Product.id p =? product_id) && Product.is_active p
                && price_between (Product.price p))
      (products db) in
  product <- require (first rs_product)
               (HTTPException HTTP_404_NOT_FOUND "Product not found") ;;
  raise_if (negb (Product.seller_id product =? User.id current_user))
    (HTTPException HTTP_403_FORBIDDEN "You can only update your own products") ;;
  let rs_category :=
    select_where
      (fun c => (Category.id c =? Product.category_id product) && Category.is_active c)
      (categories db) in
  _ <- require (first rs_category)
         (HTTPException HTTP_400_BAD_REQUEST "Category not found or inactive") ;;
  modify_db (fun db =>
    set_products
      (update_where (fun p => Product.id p =? product_id) (Product.set_is_active false)
         (products db)) db) ;;
  refresh_product (Product.id product).

(** ** [app/routers/reviews.py] *)

(** *** The numbers of the store

    [avg] over an integer column is the [numeric] quotient of the sum by the
    count, as PostgreSQL's [numeric_div] computes it. *)

Definition NBASE : Z := 10000.
Definition DEC_DIGITS : Z := 4.
Definition NUMERIC_MIN_SIG_DIGITS : Z := 16.
Definition NUMERIC_MIN_DISPLAY_SCALE : Z := 0.
Definition NUMERIC_MAX_DISPLAY_SCALE : Z := 1000.

(** The weight and the value of the leading base-[NBASE] digit of [0 <= n]. *)
Fixpoint leading_digit (fuel : nat) (n : Z) : Z * Z :=
  match fuel with
  | O => (0, n)
  | S fuel =>
      if n <? NBASE then (0, n)
      else let '(weight, digit) := leading_digit fuel (n / NBASE) in (weight + 1, digit)
  end.

Definition weight_and_first_digit (var : Z) : Z * Z :=
  leading_digit (Z.to_nat (Z.log2 (Z.abs var))) (Z.abs var).

(** The scale of a quotient of two integers: at least
    [NUMERIC_MIN_SIG_DIGITS] significant digits, estimated from the leading
    digits of the operands. *)
Definition select_div_scale (var1 var2 : Z) : Z :=
  let '(weight1, firstdigit1) := weight_and_first_digit var1 in
  let '(weight2, firstdigit2) := weight_and_first_digit var2 in
  let qweight := weight1 - weight2 in
  let qweight := if firstdigit1 <=? firstdigit2 then qweight - 1 else qweight in
  let rscale := NUMERIC_MIN_SIG_DIGITS - qweight * DEC_DIGITS in
  let rscale := Z.max rscale NUMERIC_MIN_DISPLAY_SCALE in
  Z.min rscale NUMERIC_MAX_DISPLAY_SCALE.

(** The quotient with [rscale] decimal digits, the last one rounded half away
    from zero. *)
Definition div_var (var1 var2 rscale : Z) : Q :=
  let digits := (2 * (Z.abs var1 * 10 ^ rscale) + Z.abs var2) / (2 * Z.abs var2) in
  Qred ((Z.sgn var1 * Z.sgn var2 * digits) # Z.to_pos (10 ^ rscale)).

Definition numeric_div (var1 var2 : Z) : Q :=
  div_var var1 var2 (select_div_scale var1 var2).

(** [n / d] rounded to the nearest integer, ties to the even one. *)
Definition round_half_even (n d : Z) : Z :=
  let q := n / d in
  let r := n mod d in
  if 2 * r <? d then q
  else if d <? 2 * r then q + 1
  else if Z.even q then q else q + 1.

(** [n / d] divided by [2 ^ e], as a fraction of integers. *)
Definition scaled (n d e : Z) : Z * Z :=
  if 0 <=? e then (n, d * 2 ^ e) else (n * 2 ^ (- e), d).

(** The exponent [e] of the double nearest to [n / d > 0]: its 53-bit
    significand is [n / d / 2 ^ e] rounded. *)
Definition float8_exponent (n d : Z) : Z :=
  let e := Z.log2 n - Z.log2 d - 53 in
  let '(n', d') := scaled n d e in
  if n' / d' <? 2 ^ 53 then e else e + 1.

(** The double nearest to a number, ties to even, on the range of normal
    doubles (the averages of 32-bit grades lie well within it). *)
Definition float8 (x : Q) : Q :=
  let n := Z.abs (Qnum x) in
  let d := Zpos (Qden x) in
  if n =? 0 then 0%Q
  else
    let e := float8_exponent n d in
    let '(n', d') := scaled n d e in
    let m := Z.sgn (Qnum x) * round_half_even n' d' in
    if 0 <=? e then inject_Z (m * 2 ^ e)
    else Qred (m # Z.to_pos (2 ^ (- e))).

(** [func.avg(column)] over the selected rows: the sum and the count are
    accumulated row by row; over an empty selection the result is [NULL],
    otherwise it is their [numeric] quotient. *)
Definition avg (column : list Z) : option Q :=
  let '(total, count) :=
    fold_left (fun '(s, n) g => (s + g, n + 1)) column (0, 0) in
  if count =? 0 then None
  else Some (numeric_div total count).

(** [x or 0.0]: [None] and a zero number are both falsy. *)
Definition or_zero (x : option Q) : Q :=
  match x with
  | None => 0%Q
  | Some q => if Qeq_bool q 0 then 0%Q else q
  end.

Definition update_product_rating (product_id : Z) : M unit :=
  db <- get_db ;;
  (* the one row of the aggregate query; [result.scalar()] is its value *)
  let result :=
    avg (List.map Review.grade
      (select_where
         (fun r => (Review.product_id r =? product_id) && Review.is_active r)
         (reviews db))) in
  let avg_rating := or_zero result in
  (* [await db.get(ProductModel, product_id)] *)
  let product := first (select_where (fun p => Product.id p =? product_id) (products db)) in
  product <- require product
               (AttributeError "'NoneType' object has no attribute 'rating'") ;;
  (* [product.rating = avg_rating; await db.commit()]: the float column keeps
     the nearest double *)
  modify_db (fun db =>
    set_products
      (update_where (fun p => Product.id p =? Product.id product)
         (Product.set_rating (float8 avg_rating)) (products db)) db).

(** [db.add(db_review); await db.commit()]: the key comes from the sequence,
    [comment_date] from [datetime.now] (passed in as [now]) and [is_active]
    from the column default; the check constraint on [grade] is enforced by
    the store. *)
Definition add_review (review : ReviewCreate.t) (user_id now : Z) : M Z :=
  fun db =>
    if Review.check_grade_comment (ReviewCreate.grade review) then
      let new_id := reviews_id_seq db in
      let row := Review.mk new_id user_id (ReviewCreate.product_id review)
                   (ReviewCreate.comment review) now (ReviewCreate.grade review) true in
      (Ok new_id,
       mkDB (categories db) (products db) (reviews db ++ [row])
            (categories_id_seq db) (new_id + 1))
    else (Raise (IntegrityError "check_grade_comment"), db).

(** [await db.refresh(db_review)] *)
Definition refresh_review (review_id : Z) : M Review.t :=
  db <- get_db ;;
  require (first (select_where (fun r => Review.id r =? review_id) (reviews db)))
          (InvalidRequestError "Could not refresh instance").

Definition create_review (review : ReviewCreate.t) (current_user : User.t) (now : Z)
  : M Review.t :=
  raise_if (negb (String.eqb (User.role current_user) "buyer"))
    (HTTPException HTTP_403_FORBIDDEN
       ("Только аутентифицированные пользователи с ролью "
          +:+ dquote +:+ "buyer" +:+ dquote)) ;;
  raise_if ((ReviewCreate.grade review <? 1) || (ReviewCreate.grade review >? 5))
    (HTTPException HTTP_400_BAD_REQUEST "grade вне диапазона [1–5].") ;;
  db <- get_db ;;
  let rs_product :=
    select_where
      (fun p => Product.is_active p && (Product.id p =? ReviewCreate.product_id review))
      (products db) in
  product <- require (first rs_product)
               (HTTPException HTTP_404_NOT_FOUND "Product not found or inactive") ;;
  db_review <- add_review review (User.id current_user) now ;;
  db_review <- refresh_review db_review ;;
  update_product_rating (Product.id product) ;;
  ret db_review.

Definition delete_review (review_id : Z) (current_user : User.t)
  : M (list (string * string)) :=
  db <- get_db ;;
  let rs_review :=
    select_where (fun r => (Review.id r =? review_id) && Review.is_active r) (reviews db) in
  review <- require (first rs_review)
              (HTTPException HTTP_404_NOT_FOUND "Review not found or inactive") ;;
  let rs_product :=
    select_where
      (fun p => (Product.id p =? Review.product_id review) && Product.is_active p)
      (products db) in
  product <- require (first rs_product)
               (HTTPException HTTP_404_NOT_FOUND "Product not found or inactive") ;;
  modify_db (fun db =>
    set_reviews
      (update_where (fun r => Review.id r =? Review.id review) (Review.set_is_active false)
         (reviews db)) db) ;;
  update_product_rating (Product.id product) ;;
  ret [("message", "Review deleted")].

(** * The remaining handlers *)

Module ProductCreate.
(** Modelled from the spec: the schema [ProductCreate] ([app/schemas.py]) is
    not among the sources; section 6 gives category_id, price and stock. *)
Record t : Type := mk {
  category_id : Z;
  price : Q;
  stock : Z
}.
End ProductCreate.

(** [select(Left).join(Right)]: every pair of rows that the join condition
    relates, in the order of the left table. *)
Definition join {A B} (on : A -> B -> bool) (left : list A) (right : list B)
  : list (A * B) :=
  flat_map (fun a => List.map (fun b => (a, b)) (List.filter (on a) right)) left.

(** ** [app/routers/categories.py], the listing *)

Definition get_all_categories : M (list Category.t) :=
  db <- get_db ;;
  let result := select_where (fun c => Category.is_active c) (categories db) in
  ret result.

(** ** [app/routers/products.py], besides the soft-delete *)

(** The products with their categories: [join(CategoryModel)] joins on the
    foreign key between the two tables, [products.category_id ->
    categories.id] (the column is declared in the Product model, which is
    not among the sources; the handlers compare [CategoryModel.id] with
    [product.category_id] throughout). *)
Definition get_all_products : M (list Product.t) :=
  db <- get_db ;;
  let result :=
    List.map fst
      (select_where
         (fun '(p, c) => Product.is_active p && Category.is_active c
                         && (Product.stock p >? 0))
         (join (fun p c => Product.category_id p =? Category.id c)
            (products db) (categories db))) in
  ret result.

Section CreateProduct.
(** What the store supplies when a product row is inserted: the key that
    the sequence of [products.id] hands out, and the defaults of the columns
    [rating] and [is_active] (the Product model is not among the sources). *)
Variables (new_id : Z) (rating_default : Q) (is_active_default : bool).

(** [db.add(db_product); await db.commit()] *)
Definition add_product (product : ProductCreate.t) (seller_id : Z) : M Z :=
  fun db =>
    let row := Product.mk new_id (ProductCreate.category_id product) seller_id
                 (ProductCreate.price product) (ProductCreate.stock product)
                 rating_default is_active_default in
    (Ok new_id, set_products (products db ++ [row]) db).

Definition create_product (product : ProductCreate.t) (current_user : User.t)
  : M Product.t :=
  db <- get_db ;;
  let rs_category :=
    select_where
      (fun c => (Category.id c =? ProductCreate.category_id product)
                && Category.is_active c)
      (categories db) in
  _ <- require (first rs_category)
         (HTTPException HTTP_400_BAD_REQUEST "Category not found or inactive") ;;
  db_product <- add_product product (User.id current_user) ;;
  refresh_product db_product.
End CreateProduct.

Definition get_products_by_category (category_id : Z) : M (list Product.t) :=
  db <- get_db ;;
  let rs_category :=
    select_where (fun c => (Category.id c =? category_id) && Category.is_active c)
      (categories db) in
  _ <- require (first rs_category)
         (HTTPException HTTP_400_BAD_REQUEST "Category not found or inactive") ;;
  let rs_products :=
    select_where
      (fun p => (Product.category_id p =? category_id) && Product.is_active p)
      (products db) in
  ret rs_products.

Definition get_product (product_id : Z) : M Product.t :=
  db <- get_db ;;
  let rs_product :=
    select_where (fun p => (Product.id p =? product_id) && Product.is_active p)
      (products db) in
  product <- require (first rs_product)
               (HTTPException HTTP_404_NOT_FOUND "Product not found") ;;
  let rs_category :=
    select_where
      (fun c => (Category.id c =? Product.category_id product) && Category.is_active c)
      (categories db) in
  _ <- require (first rs_category)
         (HTTPException HTTP_400_BAD_REQUEST "Category not found or inactive") ;;
  ret product.

(** The [values] of the update, [product.model_dump()] unpacked: every field
    of the request. *)
Definition product_values (product : ProductCreate.t) (p : Product.t) : Product.t :=
  Product.mk (Product.id p) (ProductCreate.category_id product) (Product.seller_id p)
    (ProductCreate.price product) (ProductCreate.stock product)
    (Product.rating p) (Product.is_active p).

Definition update_product (product_id : Z) (product : ProductCreate.t)
    (current_user : User.t) : M Product.t :=
  db <- get_db ;;
  let rs_db_product :=
    select_where (fun p => (Product.id p =? product_id) && Product.is_active p)
      (products db) in
  db_product <- require (first rs_db_product)
                  (HTTPException HTTP_404_NOT_FOUND "Product not found") ;;
  raise_if (negb (Product.seller_id db_product =? User.id current_user))
    (HTTPException HTTP_403_FORBIDDEN "You can only update your own products") ;;
  let rs_category :=
    select_where
      (fun c => (Category.id c =? ProductCreate.category_id product)
                && Category.is_active c)
      (categories db) in
  _ <- require (first rs_category)
         (HTTPException HTTP_400_BAD_REQUEST "Category not found or inactive") ;;
  modify_db (fun db =>
    set_products
      (update_where (fun p => Product.id p =? product_id) (product_values product)
         (products db)) db) ;;
  refresh_product (Product.id db_product).

Module Products.
(** [get_reviews] of [app/routers/products.py]: the reviews of one product. *)
Definition get_reviews (product_id : Z) : M (list Review.t) :=
  db <- get_db ;;
  let rs_product :=
    select_where (fun p => (Product.id p =? product_id) && Product.is_active p)
      (products db) in
  product <- require (first rs_product)
               (HTTPException HTTP_404_NOT_FOUND "Product not found") ;;
  let rs_reviews :=
    select_where
      (fun r => Review.is_active r && (Review.product_id r =? Product.id product))
      (reviews db) in
  ret rs_reviews.
End Products.

Module Reviews.
(** [get_reviews] of [app/routers/reviews.py]: the reviews of all products. *)
Definition get_reviews : M (list Review.t) :=
  db <- get_db ;;
  let rs_reviews := select_where (fun r => Review.is_active r) (reviews db) in
  ret rs_reviews.
End Reviews.

(** What the remaining handlers raise, by the names of the specification. *)
Definition ForbiddenRole : exn :=
  HTTPException 403
    ("Только аутентифицированные пользователи с ролью "
       +:+ dquote +:+ "buyer" +:+ dquote).
Definition NotOwner : exn :=
  HTTPException 403 "You can only update your own products".
Definition ProductMissing : exn :=
  HTTPException 404 "Product not found".
Definition CategoryInactive : exn :=
  HTTPException 400 "Category not found or inactive".

(** * Specification vocabulary *)

(** ** Failure kinds

    The names the specification gives to what the handlers raise. *)
Definition CategoryNotFound : exn :=
  HTTPException 400 "Category not found".
Definition ParentNotFound : exn :=
  HTTPException 400 "Parent category not found".
Definition SelfParentError : exn :=
  HTTPException 400 "Category cannot be its own parent".
Definition InvalidGrade : exn :=
  HTTPException 400 "grade вне диапазона [1–5].".
Definition ReviewNotFound : exn :=
  HTTPException 404 "Review not found or inactive".
Definition ProductNotFound : exn :=
  HTTPException 404 "Product not found or inactive".

(** ** The rating of a product *)

(** The grades of the reviews that count for a product: its active ones. *)
Definition active_grades (product_id : Z) (db : DB) : list Z :=
  Review.grade <$>
    filter (λ r, Review.product_id r = product_id ∧ Review.is_active r = true)
           (reviews db).


(** The mean of a list of grades as the store computes and keeps it: the
    [numeric] quotient of the sum by the count, as a double. *)
Definition stored_mean (grades : list Z) : Q :=
  float8 (numeric_div (foldr Z.add 0 grades) (Z.of_nat (length grades))).

(** The rating that belongs to a product: the stored mean over its active
    reviews, and zero when it has none. *)
Definition rating_spec (product_id : Z) (db : DB) : Q :=
  match active_grades product_id db with
  | [] => 0%Q
  | grades => stored_mean grades
  end.

(** What a 32-bit [Integer] column, and a parameter bound to it, can hold. *)
Definition int4 (z : Z) : Prop := -2147483648 <= z <= 2147483647.

(** What the store holds as the rating of a product ([db.get] by key). *)
Definition stored_rating (product_id : Z) (db : DB) : option Q :=
  Product.rating <$>
    first (select_where (fun p => Product.id p =? product_id) (products db)).

(** ** Store invariants

    Primary keys are unique and were drawn from the sequences, and the check
    constraint on grades holds. *)
Record wf_db (db : DB) : Prop := mk_wf_db {
  wf_categories_pk : NoDup (Category.id <$> categories db);
  wf_products_pk : NoDup (Product.id <$> products db);
  wf_reviews_pk : NoDup (Review.id <$> reviews db);
  wf_categories_seq : Forall (λ c, Category.id c < categories_id_seq db) (categories db);
  wf_reviews_seq : Forall (λ r, Review.id r < reviews_id_seq db) (reviews db);
  wf_check_grade : Forall (λ r, 1 <= Review.grade r <= 5) (reviews db)
}.

(** ** Steps of the review handlers *)

(** The row that a review create adds, and the store once it is added. *)
Definition new_review (review : ReviewCreate.t) (current_user : User.t) (now : Z) (db : DB)
  : Review.t :=
  Review.mk (reviews_id_seq db) (User.id current_user) (ReviewCreate.product_id review)
    (ReviewCreate.comment review) now (ReviewCreate.grade review) true.

Definition with_new_review (review : ReviewCreate.t) (current_user : User.t) (now : Z)
    (db : DB) : DB :=
  mkDB (categories db) (products db) (reviews db ++ [new_review review current_user now db])
       (categories_id_seq db) (reviews_id_seq db + 1).

(** A product that review handlers accept: in the store and active. *)
Definition active_product (product_id : Z) (db : DB) : Prop :=
  exists p, p ∈ products db /\ Product.id p = product_id /\ Product.is_active p = true.

(** What a recompute may change: the rating column of products. *)
Definition rating_written (db db' : DB) : Prop :=
  exists P q, db' = set_products (update_where P (Product.set_rating q) (products db)) db.

(** ** A small store to run the handlers on *)

Definition buyer : User.t := User.mk 9 "buyer".
Definition seller : User.t := User.mk 7 "seller".
Definition admin : User.t := User.mk 1 "admin".

(** Two root categories, the second one soft-deleted, one product of
    [seller] in the first, and no review yet. *)
Definition shop : DB :=
  mkDB [Category.mk 1 None "books" true; Category.mk 2 None "music" false]
       [Product.mk 1 1 7 (10 # 1) 3 0 true]
       []
       3 1.

(** The store left by a handler, whatever its outcome. *)
Definition store_after {A} (m : M A) (db : DB) : DB := snd (m db).

(** [shop] after three buyers' reviews of product 1, graded 4, 5 and 3. *)
Definition shop_reviewed : DB :=
  store_after (create_review (ReviewCreate.mk 1 None 3) buyer 30)
    (store_after (create_review (ReviewCreate.mk 1 (Some "fine") 5) buyer 20)
       (store_after (create_review (ReviewCreate.mk 1 None 4) buyer 10) shop)).

(** [shop_reviewed] after the soft-delete of the review graded 3. *)
Definition shop_moderated : DB :=
  store_after (delete_review 3 admin) shop_reviewed.


(** A category that product handlers accept: in the store and active. *)
Definition active_category (category_id : Z) (db : DB) : Prop :=
  exists c, c ∈ categories db /\ Category.id c = category_id /\
            Category.is_active c = true.

(** ** More stores to run the handlers on *)

Definition rival : User.t := User.mk 8 "seller".

(** [shop_reviewed] with its product taken off the shelves. *)
Definition shop_delisted : DB :=
  set_products
    (update_where (fun p => Product.id p =? 1) (Product.set_is_active false)
       (products shop_reviewed)) shop_reviewed.

(** Products of two sellers: one on sale, one in the soft-deleted category,
    one out of stock, one soft-deleted. *)
Definition market : DB :=
  mkDB [Category.mk 1 None "books" true; Category.mk 2 (Some 1) "music" false]
       [Product.mk 1 1 7 (10 # 1) 3 0 true;
        Product.mk 2 2 8 (25 # 1) 5 0 true;
        Product.mk 3 1 7 (7 # 2) 0 0 true;
        Product.mk 4 1 8 (1 # 1) 2 0 false]
       []
       3 1.

(** * Properties *)

Ltac run_handler :=
  unfold raise_if, require, lift, get_db, modify_db in *;
  unfold bind, ret, raise in *;
  cbn beta iota in *.


(** ** Queries *)

Section QueryFacts.
Context {A : Type}.
Implicit Types (P : A -> bool) (f : A -> A) (tbl : list A).

Lemma first_select_Some P tbl r :
  first (select_where P tbl) = Some r -> r ∈ tbl /\ P r = true.
Proof.
  unfold first, select_where. intros H.
  assert (Hin : In r (List.filter P tbl)).
  { destruct (List.filter P tbl); simplify_eq/=. by left. }
  apply filter_In in Hin as [Hin HP]. split; [by apply list_elem_of_In | done].
Qed.

Lemma first_select_None P tbl :
  first (select_where P tbl) = None <-> (forall r, r ∈ tbl -> P r = false).
Proof.
  unfold first, select_where. induction tbl as [|x tbl IH]; simpl.
  - split; [intros _ r Hr; by apply elem_of_nil in Hr | done].
  - destruct (P x) eqn:HP; simpl.
    + split; [done | intros H; specialize (H x (list_elem_of_here _ _)); congruence].
    + rewrite IH. split.
      * intros H r [->|Hr]%elem_of_cons; auto.
      * intros H r Hr. apply H. by right.
Qed.

Lemma first_select_is_Some P tbl r :
  r ∈ tbl -> P r = true -> is_Some (first (select_where P tbl)).
Proof.
  intros Hr HP. destruct (first (select_where P tbl)) eqn:E; [by eexists|].
  rewrite first_select_None in E. rewrite (E r Hr) in HP. done.
Qed.

(** An update that does not move rows in or out of a selection maps the
    first selected row to its updated version. *)
Lemma first_select_update_where P Q f tbl r :
  (forall x, P (f x) = P x) ->
  first (select_where P tbl) = Some r ->
  first (select_where P (update_where Q f tbl)) = Some (if Q r then f r else r).
Proof.
  intros Hf. unfold first, select_where, update_where.
  induction tbl as [|x tbl IH]; simpl; [done|].
  assert (HPx : P (if Q x then f x else x) = P x) by (destruct (Q x); auto).
  rewrite HPx. destruct (P x); simpl; [by intros [= ->] | exact IH].
Qed.

End QueryFacts.

(** ** The numbers of the store *)

Lemma round_half_even_lower (n d k : Z) :
  0 < d -> k * d <= n -> k <= round_half_even n d.
Proof.
  intros Hd Hk. unfold round_half_even.
  assert (Hq : k <= n / d) by (apply Z.div_le_lower_bound; lia).
  repeat case_match; lia.
Qed.

Lemma round_half_even_upper (n d k : Z) :
  0 < d -> n <= k * d -> round_half_even n d <= k.
Proof.
  intros Hd Hk. unfold round_half_even.
  pose proof (Z.div_mod n d ltac:(lia)) as Hn.
  pose proof (Z.mod_pos_bound n d Hd) as Hr.
  destruct (Z.ltb_spec (2 * (n mod d)) d); [nia|].
  assert (n / d + 1 <= k) by nia.
  repeat case_match; lia.
Qed.

Lemma Zpos_to_pos (k : Z) : 0 < k -> Zpos (Z.to_pos k) = k.
Proof. intros. by apply Z2Pos.id. Qed.

Lemma select_div_scale_nonneg var1 var2 : 0 <= select_div_scale var1 var2.
Proof.
  unfold select_div_scale. repeat case_match; unfold NUMERIC_MIN_DISPLAY_SCALE,
    NUMERIC_MAX_DISPLAY_SCALE; lia.
Qed.

(** A quotient rounded at a scale stays between the integers that bound it. *)
Lemma div_var_bounds (var1 var2 rscale lo hi : Z) :
  0 < var2 -> 0 <= rscale -> 0 <= lo ->
  lo * var2 <= var1 <= hi * var2 ->
  (inject_Z lo <= div_var var1 var2 rscale)%Q /\ (div_var var1 var2 rscale <= inject_Z hi)%Q.
Proof.
  intros Hc Hs Hlo [H1 H2]. unfold div_var.
  assert (Hpow : 0 < 10 ^ rscale) by (apply Z.pow_pos_nonneg; lia).
  assert (Hv1 : 0 <= var1) by nia.
  rewrite (Z.abs_eq var1), (Z.abs_eq var2) by lia.
  set (digits := (2 * (var1 * 10 ^ rscale) + var2) / (2 * var2)).
  assert (Hdl : lo * 10 ^ rscale <= digits).
  { apply Z.div_le_lower_bound; nia. }
  assert (Hdu : digits <= hi * 10 ^ rscale).
  { assert (digits < hi * 10 ^ rscale + 1); [|lia].
    apply Z.div_lt_upper_bound; nia. }
  rewrite Qred_correct. unfold Qle. cbn [Qnum Qden inject_Z].
  rewrite Zpos_to_pos by done.
  destruct (Z.eq_dec var1 0) as [->|Hne].
  - cbn [Z.sgn Z.mul]. assert (lo = 0) by nia. assert (0 <= hi) by nia. subst lo. nia.
  - rewrite (Z.sgn_pos var1), (Z.sgn_pos var2) by lia. nia.
Qed.

Lemma log2_bound (n d : Z) : 0 < d -> n <= 5 * d -> Z.log2 n <= Z.log2 d + 3.
Proof.
  intros Hd Hn.
  transitivity (Z.log2 (d * 2 ^ 3)).
  - apply Z.log2_le_mono. lia.
  - rewrite Z.log2_mul_pow2 by lia. lia.
Qed.

Lemma float8_exponent_small (n d : Z) :
  0 < d -> n <= 5 * d -> float8_exponent n d <= -49.
Proof.
  intros Hd Hn. unfold float8_exponent.
  pose proof (log2_bound n d Hd Hn). repeat case_match; lia.
Qed.

Lemma float8_bounds (x : Q) :
  (1 <= x)%Q -> (x <= 5)%Q -> (1 <= float8 x)%Q /\ (float8 x <= 5)%Q.
Proof.
  destruct x as [n d]. intros Hlo Hhi. unfold Qle in Hlo, Hhi. cbn [Qnum Qden] in Hlo, Hhi.
  unfold float8. cbn [Qnum Qden].
  assert (Hn : 0 < n) by lia.
  rewrite (Z.abs_eq n), (Z.sgn_pos n) by lia.
  destruct (Z.eqb_spec n 0); [lia|].
  pose proof (float8_exponent_small n (Zpos d) ltac:(lia) ltac:(lia)) as He.
  set (e := float8_exponent n (Zpos d)) in *.
  unfold scaled. destruct (Z.leb_spec 0 e); [lia|].
  assert (Hk : 0 < 2 ^ (- e)) by (apply Z.pow_pos_nonneg; lia).
  pose proof (round_half_even_lower (n * 2 ^ (- e)) (Zpos d) (2 ^ (- e)) ltac:(lia)
                ltac:(nia)) as Hml.
  pose proof (round_half_even_upper (n * 2 ^ (- e)) (Zpos d) (5 * 2 ^ (- e)) ltac:(lia)
                ltac:(nia)) as Hmu.
  rewrite !Qred_correct. unfold Qle. cbn [Qnum Qden]. rewrite Zpos_to_pos by done. lia.
Qed.








Lemma div_var_reduced (var1 var2 rscale : Z) :
  Qred (div_var var1 var2 rscale) = div_var var1 var2 rscale.
Proof. unfold div_var. apply Qred_complete, Qred_correct. Qed.

(** ** The aggregate *)

Lemma fold_left_sum_count (column : list Z) (s n : Z) :
  fold_left (fun '(s, n) g => (s + g, n + 1)) column (s, n)
  = (s + foldr Z.add 0 column, n + Z.of_nat (length column)).
Proof.
  revert s n. induction column as [|g column IH]; intros s n; simpl.
  - f_equal; lia.
  - rewrite IH. f_equal; lia.
Qed.

Lemma avg_numeric (column : list Z) :
  column <> [] ->
  avg column = Some (numeric_div (foldr Z.add 0 column) (Z.of_nat (length column))).
Proof.
  intros Hne. unfold avg. rewrite fold_left_sum_count.
  destruct column as [|g column]; [done|].
  destruct (Z.eqb_spec (0 + Z.of_nat (length (g :: column))) 0) as [E|_].
  - simpl in E. lia.
  - by rewrite !Z.add_0_l.
Qed.

Lemma Qred_zero (q : Q) : (Qred q == 0)%Q -> Qred q = 0%Q.
Proof.
  intros H. apply Qred_complete in H.
  rewrite (Qred_complete _ _ (Qred_correct q)) in H. exact H.
Qed.

(** [x or 0.0] leaves the number that the aggregate computed as it is: when
    the quotient is falsy it is zero already; the column then keeps its
    double. *)
Lemma or_zero_avg (column : list Z) :
  float8 (or_zero (avg column)) =
  match column with
  | [] => 0%Q
  | _ => stored_mean column
  end.
Proof.
  destruct column as [|g column]; [done|].
  rewrite avg_numeric by done. unfold or_zero, stored_mean.
  destruct (Qeq_bool _ 0) eqn:E; [|done].
  apply Qeq_bool_eq in E. unfold numeric_div in *.
  rewrite <- div_var_reduced in E |- *. by rewrite (Qred_zero _ E).
Qed.

(** The rows that the aggregate query selects are the active reviews of the
    product. *)
Lemma selected_grades (product_id : Z) (db : DB) :
  List.map Review.grade
    (select_where (fun r => (Review.product_id r =? product_id) && Review.is_active r)
       (reviews db))
  = active_grades product_id db.
Proof.
  unfold active_grades, select_where.
  induction (reviews db) as [|r l IH]; [done|].
  rewrite filter_cons. cbn [List.filter List.map].
  destruct (Z.eqb_spec (Review.product_id r) product_id) as [Hp|Hp];
    destruct (Review.is_active r) eqn:Ha; cbn [andb];
    destruct (decide _) as [[? ?]|Hd]; try congruence;
    try (exfalso; by apply Hd); cbn [List.map]; by rewrite IH.
Qed.

Lemma or_zero_avg_rating_spec (product_id : Z) (db : DB) :
  float8 (or_zero (avg (active_grades product_id db))) = rating_spec product_id db.
Proof. unfold rating_spec. rewrite or_zero_avg. by destruct (active_grades _ _). Qed.

(** The sum of grades between 1 and 5. *)
Lemma foldr_add_bounds (grades : list Z) :
  Forall (λ g, 1 <= g <= 5) grades ->
  Z.of_nat (length grades) <= foldr Z.add 0 grades <= 5 * Z.of_nat (length grades).
Proof.
  induction 1 as [|g grades Hg _ IH]; simpl; lia.
Qed.

(** The stored mean of grades between 1 and 5 lies between 1 and 5: both
    roundings keep a number on its side of an integer. *)
Lemma stored_mean_bounds (grades : list Z) :
  grades <> [] -> Forall (λ g, 1 <= g <= 5) grades ->
  (1 <= stored_mean grades)%Q /\ (stored_mean grades <= 5)%Q.
Proof.
  intros Hne Hall. pose proof (foldr_add_bounds grades Hall) as [Hlo Hhi].
  assert (Hlen : 0 < Z.of_nat (length grades)) by (destruct grades; [done | simpl; lia]).
  unfold stored_mean, numeric_div.
  destruct (div_var_bounds (foldr Z.add 0 grades) (Z.of_nat (length grades))
              (select_div_scale (foldr Z.add 0 grades) (Z.of_nat (length grades))) 1 5)
    as [H1 H5]; [done | apply select_div_scale_nonneg | lia | lia |].
  by apply float8_bounds.
Qed.


(** ** The rating recompute *)

Lemma update_product_rating_unfold (product_id : Z) (db : DB) :
  update_product_rating product_id db =
  match first (select_where (fun p => Product.id p =? product_id) (products db)) with
  | Some p =>
      (Ok tt,
       set_products
         (update_where (fun x => Product.id x =? Product.id p)
            (Product.set_rating (rating_spec product_id db)) (products db)) db)
  | None => (Raise (AttributeError "'NoneType' object has no attribute 'rating'"), db)
  end.
Proof.
  unfold update_product_rating. run_handler.
  rewrite selected_grades, or_zero_avg_rating_spec.
  by destruct (first _).
Qed.

Lemma rating_written_reviews db db' : rating_written db db' -> reviews db' = reviews db.
Proof. by intros (P & q & ->). Qed.

Lemma rating_written_categories db db' :
  rating_written db db' -> categories db' = categories db.
Proof. by intros (P & q & ->). Qed.

Lemma rating_written_seq db db' :
  rating_written db db' ->
  categories_id_seq db' = categories_id_seq db /\ reviews_id_seq db' = reviews_id_seq db.
Proof. by intros (P & q & ->). Qed.

Lemma rating_written_product_ids db db' :
  rating_written db db' -> Product.id <$> products db' = Product.id <$> products db.
Proof.
  intros (P & q & ->). cbn [products set_products]. unfold update_where.
  induction (products db) as [|p l IH]; [done|]. cbn. rewrite IH. by destruct (P p).
Qed.

Lemma rating_written_active_grades product_id db db' :
  rating_written db db' -> active_grades product_id db' = active_grades product_id db.
Proof. intros H. unfold active_grades. by rewrite (rating_written_reviews _ _ H). Qed.

(** A successful recompute touches ratings only and stores the specified
    rating under the product's key. *)
Lemma update_product_rating_Ok (product_id : Z) (db db' : DB) :
  update_product_rating product_id db = (Ok tt, db') ->
  rating_written db db' /\
  stored_rating product_id db' = Some (rating_spec product_id db').
Proof.
  rewrite update_product_rating_unfold.
  destruct (first _) as [p|] eqn:Hp; [|done]. intros [= <-].
  split; [by eexists _, _|].
  unfold stored_rating. cbn [products set_products].
  rewrite (first_select_update_where _ _ _ _ p); [|done|done].
  rewrite Z.eqb_refl. cbn.
  reflexivity.
Qed.

(** The recompute succeeds as soon as the product is in the store. *)
Lemma update_product_rating_total (product_id : Z) (db : DB) (p : Product.t) :
  p ∈ products db -> Product.id p = product_id ->
  exists db', update_product_rating product_id db = (Ok tt, db').
Proof.
  intros Hin Hid. rewrite update_product_rating_unfold.
  destruct (first_select_is_Some (fun p => Product.id p =? product_id) _ p Hin) as [p' ->].
  - by apply Z.eqb_eq.
  - by eexists.
Qed.

(** ** Review create and soft-delete, step by step *)

Lemma grade_check_agrees (g : Z) :
  (g <? 1) || (g >? 5) = negb (Review.check_grade_comment g).
Proof. unfold Review.check_grade_comment. lia. Qed.

Lemma create_review_unfold review current_user now db :
  create_review review current_user now db =
  if negb (String.eqb (User.role current_user) "buyer") then
    (Raise (HTTPException 403
       ("Только аутентифицированные пользователи с ролью "
          +:+ dquote +:+ "buyer" +:+ dquote)), db)
  else if (ReviewCreate.grade review <? 1) || (ReviewCreate.grade review >? 5) then
    (Raise InvalidGrade, db)
  else
    match first (select_where
                   (fun p => Product.is_active p
                             && (Product.id p =? ReviewCreate.product_id review))
                   (products db)) with
    | None => (Raise ProductNotFound, db)
    | Some product =>
        let db1 := with_new_review review current_user now db in
        match first (select_where (fun r => Review.id r =? reviews_id_seq db)
                       (reviews db1)) with
        | None => (Raise (InvalidRequestError "Could not refresh instance"), db1)
        | Some db_review =>
            match update_product_rating (Product.id product) db1 with
            | (Ok _, db2) => (Ok db_review, db2)
            | (Raise e, db2) => (Raise e, db2)
            end
        end
    end.
Proof.
  unfold create_review, add_review, refresh_review. run_handler.
  destruct (negb _); [done|].
  rewrite grade_check_agrees.
  destruct (Review.check_grade_comment _); cbn [negb]; [|done].
  destruct (first _) as [product|]; [|done].
  cbn zeta. fold (new_review review current_user now db).
  fold (with_new_review review current_user now db).
  destruct (first _) as [db_review|]; [|done].
  by destruct (update_product_rating _ _) as [[[]|e] db2].
Qed.

Lemma delete_review_unfold review_id current_user db :
  delete_review review_id current_user db =
  match first (select_where (fun r => (Review.id r =? review_id) && Review.is_active r)
                 (reviews db)) with
  | None => (Raise ReviewNotFound, db)
  | Some review =>
      match first (select_where
                     (fun p => (Product.id p =? Review.product_id review)
                               && Product.is_active p)
                     (products db)) with
      | None => (Raise ProductNotFound, db)
      | Some product =>
          let db1 :=
            set_reviews
              (update_where (fun r => Review.id r =? Review.id review)
                 (Review.set_is_active false) (reviews db)) db in
          match update_product_rating (Product.id product) db1 with
          | (Ok _, db2) => (Ok [("message", "Review deleted")], db2)
          | (Raise e, db2) => (Raise e, db2)
          end
      end
  end.
Proof.
  unfold delete_review. run_handler.
  destruct (first _) as [review|]; [|done].
  destruct (first _) as [product|]; [|done].
  by destruct (update_product_rating _ _) as [[[]|e] db2].
Qed.

Lemma active_product_first (product_id : Z) (db : DB) :
  active_product product_id db <->
  is_Some (first (select_where
                    (fun p => Product.is_active p && (Product.id p =? product_id))
                    (products db))).
Proof.
  split.
  - intros (p & Hin & Hid & Hact).
    apply (first_select_is_Some _ _ p Hin). rewrite Hact. by apply Z.eqb_eq.
  - intros [p Hp]. apply first_select_Some in Hp as [Hin [Hact Hid]%andb_prop].
    exists p. by apply Z.eqb_eq in Hid.
Qed.

Lemma active_product_first' (product_id : Z) (db : DB) :
  active_product product_id db <->
  is_Some (first (select_where
                    (fun p => (Product.id p =? product_id) && Product.is_active p)
                    (products db))).
Proof.
  rewrite active_product_first. unfold select_where.
  by rewrite (List.filter_ext
                (fun p => (Product.id p =? product_id) && Product.is_active p)
                (fun p => Product.is_active p && (Product.id p =? product_id)))
    by (intros; apply andb_comm).
Qed.

(** Writing a rating keeps a product where it is, with its key and status. *)
Lemma active_product_set_rating (product_id : Z) (db : DB) P q :
  active_product product_id db ->
  active_product product_id
    (set_products (update_where P (Product.set_rating q) (products db)) db).
Proof.
  intros (p & Hin & Hid & Hact).
  exists (if P p then Product.set_rating q p else p). split; [|by destruct (P p)].
  cbn [products set_products]. unfold update_where.
  apply list_elem_of_In, in_map_iff. exists p. split; [done | by apply list_elem_of_In].
Qed.

Lemma active_grades_app (product_id : Z) (db db' : DB) (l : list Review.t) :
  reviews db' = (reviews db ++ l)%list ->
  active_grades product_id db'
  = (active_grades product_id db
     ++ (Review.grade <$>
          filter (λ r, Review.product_id r = product_id ∧ Review.is_active r = true) l))%list.
Proof. unfold active_grades. intros ->. by rewrite filter_app, fmap_app. Qed.

Lemma rating_written_active_product product_id db db' :
  rating_written db db' -> active_product product_id db -> active_product product_id db'.
Proof. intros (P & q & ->). apply active_product_set_rating. Qed.

(** What a successful review create went through and left behind. *)
Lemma create_review_Ok review current_user now db r db' :
  create_review review current_user now db = (Ok r, db') ->
  User.role current_user = "buyer" /\
  1 <= ReviewCreate.grade review <= 5 /\
  active_product (ReviewCreate.product_id review) db /\
  r ∈ reviews db' /\ Review.id r = reviews_id_seq db /\
  rating_written (with_new_review review current_user now db) db' /\
  stored_rating (ReviewCreate.product_id review) db'
  = Some (rating_spec (ReviewCreate.product_id review) db').
Proof.
  rewrite create_review_unfold.
  destruct (String.eqb_spec (User.role current_user) "buyer") as [Hrole|];
    [|cbn [negb]; done].
  cbn [negb]. destruct (_ || _) eqn:Hgrade; [done|].
  destruct (first (select_where _ (products _))) as [product|] eqn:Hproduct; [|done].
  cbn zeta.
  destruct (first (select_where _ (reviews _))) as [db_review|] eqn:Hrefresh; [|done].
  destruct (update_product_rating _ _) as [[[]|e] db2] eqn:Hrating; [|done].
  intros [= <- <-].
  assert (Hactive : active_product (ReviewCreate.product_id review) db).
  { apply active_product_first. by eexists. }
  apply first_select_Some in Hproduct as [_ [_ Hid%Z.eqb_eq]%andb_prop].
  rewrite Hid in Hrating. apply update_product_rating_Ok in Hrating as [Hw Hstored].
  apply first_select_Some in Hrefresh as [Hin Hrid%Z.eqb_eq].
  rewrite <- (rating_written_reviews _ _ Hw) in Hin.
  repeat split; try done; lia.
Qed.

(** A review create by a buyer with a grade in range on an active product
    goes through. *)
Lemma create_review_success review current_user now db :
  User.role current_user = "buyer" ->
  1 <= ReviewCreate.grade review <= 5 ->
  active_product (ReviewCreate.product_id review) db ->
  exists r db', create_review review current_user now db = (Ok r, db').
Proof.
  intros Hrole Hgrade Hactive. rewrite create_review_unfold.
  rewrite Hrole. cbn [String.eqb Ascii.eqb Bool.eqb negb andb].
  replace (_ || _) with false by lia.
  pose proof Hactive as [product Hproduct]%active_product_first. rewrite Hproduct.
  cbn zeta.
  destruct (first_select_is_Some (fun r => Review.id r =? reviews_id_seq db)
              (reviews (with_new_review review current_user now db))
              (new_review review current_user now db)) as [db_review ->].
  { cbn [reviews with_new_review]. apply elem_of_app. right. apply list_elem_of_here. }
  { apply Z.eqb_refl. }
  apply first_select_Some in Hproduct as [Hin [_ Hid%Z.eqb_eq]%andb_prop].
  destruct (update_product_rating_total (Product.id product)
              (with_new_review review current_user now db) product) as [db2 ->]; [done..|].
  by eexists _, _.
Qed.

(** ** Primary keys *)

Section Keys.
Context {A : Type} (key : A -> Z).

Lemma key_inj (tbl : list A) (x y : A) :
  NoDup (key <$> tbl) -> x ∈ tbl -> y ∈ tbl -> key x = key y -> x = y.
Proof.
  induction tbl as [|a tbl IH]; [by intros _ ?%elem_of_nil|].
  rewrite fmap_cons, NoDup_cons.
  intros [Ha Hnd] [->|Hx]%elem_of_cons [->|Hy]%elem_of_cons Hk; auto.
  - exfalso. apply Ha. rewrite Hk. by apply list_elem_of_fmap_2.
  - exfalso. apply Ha. rewrite <- Hk. by apply list_elem_of_fmap_2.
Qed.

(** A selection that pins the key finds the row with that key. *)
Lemma first_select_by_key (P : A -> bool) (tbl : list A) (r : A) :
  NoDup (key <$> tbl) -> r ∈ tbl -> P r = true ->
  (forall x, P x = true -> key x = key r) ->
  first (select_where P tbl) = Some r.
Proof.
  intros Hnd Hin HP Hkey.
  destruct (first_select_is_Some P tbl r Hin HP) as [r' Hr'].
  rewrite Hr'. f_equal.
  apply first_select_Some in Hr' as [Hin' HP'].
  by apply (key_inj tbl); [..|apply Hkey].
Qed.

(** An update that keeps keys keeps them unique. *)
Lemma update_where_keys (P : A -> bool) (f : A -> A) (tbl : list A) :
  (forall x, key (f x) = key x) ->
  key <$> update_where P f tbl = key <$> tbl.
Proof.
  intros Hf. unfold update_where.
  induction tbl as [|a tbl IH]; [done|]. cbn. rewrite IH. f_equal.
  destruct (P a); [apply Hf | done].
Qed.
End Keys.

(** What a successful review soft-delete went through and left behind. *)
Lemma delete_review_Ok review_id current_user db v db' :
  delete_review review_id current_user db = (Ok v, db') ->
  exists review,
    review ∈ reviews db /\ Review.id review = review_id /\
    Review.is_active review = true /\
    active_product (Review.product_id review) db /\
    rating_written
      (set_reviews
         (update_where (fun r => Review.id r =? review_id) (Review.set_is_active false)
            (reviews db)) db) db' /\
    stored_rating (Review.product_id review) db'
    = Some (rating_spec (Review.product_id review) db').
Proof.
  rewrite delete_review_unfold.
  destruct (first (select_where _ (reviews _))) as [review|] eqn:Hreview; [|done].
  destruct (first (select_where _ (products _))) as [product|] eqn:Hproduct; [|done].
  cbn zeta. destruct (update_product_rating _ _) as [[[]|e] db2] eqn:Hrating; [|done].
  intros [= <- <-]. exists review.
  assert (Hactive : active_product (Review.product_id review) db).
  { apply active_product_first'. by eexists. }
  apply first_select_Some in Hreview as [Hin [Hid%Z.eqb_eq Hact]%andb_prop].
  apply first_select_Some in Hproduct as [_ [Hpid%Z.eqb_eq _]%andb_prop].
  rewrite Hpid, Hid in Hrating.
  apply update_product_rating_Ok in Hrating as [Hw Hstored].
  done.
Qed.

(** An active review of an active product can be soft-deleted. *)
Lemma delete_review_success review current_user db :
  NoDup (Review.id <$> reviews db) ->
  review ∈ reviews db -> Review.is_active review = true ->
  active_product (Review.product_id review) db ->
  exists db',
    delete_review (Review.id review) current_user db
    = (Ok [("message", "Review deleted")], db') /\
    rating_written
      (set_reviews
         (update_where (fun r => Review.id r =? Review.id review)
            (Review.set_is_active false) (reviews db)) db) db' /\
    stored_rating (Review.product_id review) db'
    = Some (rating_spec (Review.product_id review) db').
Proof.
  intros Hnd Hin Hact Hproduct. rewrite delete_review_unfold.
  rewrite (first_select_by_key Review.id _ _ review); try done.
  - pose proof Hproduct as [product Hp]%active_product_first'. rewrite Hp. cbn zeta.
    apply first_select_Some in Hp as [Hpin [Hpid%Z.eqb_eq _]%andb_prop].
    destruct (update_product_rating_total (Product.id product)
      (set_reviews
         (update_where (fun r => Review.id r =? Review.id review)
            (Review.set_is_active false) (reviews db)) db) product) as [db2 Hrating];
      [done..|].
    rewrite Hrating. exists db2. split; [done|].
    rewrite Hpid in Hrating. by apply update_product_rating_Ok in Hrating.
  - rewrite Z.eqb_refl. by rewrite Hact.
  - by intros x [?%Z.eqb_eq _]%andb_prop.
Qed.

(** ** The store invariants are kept *)

Lemma Forall_update_where {A} (Q : A -> Prop) (P : A -> bool) (f : A -> A) (tbl : list A) :
  (forall x, Q x -> Q (f x)) -> Forall Q tbl -> Forall Q (update_where P f tbl).
Proof.
  intros Hf. unfold update_where. induction 1 as [|x tbl Hx _ IH]; cbn; [done|].
  constructor; [|done]. destruct (P x); auto.
Qed.

Lemma wf_with_new_review review current_user now db :
  wf_db db -> 1 <= ReviewCreate.grade review <= 5 ->
  wf_db (with_new_review review current_user now db).
Proof.
  intros [Hc Hp Hr Hcs Hrs Hg] Hgrade. split; cbn [with_new_review categories products
    reviews categories_id_seq reviews_id_seq]; try done.
  - rewrite fmap_app. apply NoDup_app. split; [done|]. split; [|apply NoDup_singleton].
    intros i Hi ->%list_elem_of_singleton. cbn in Hi.
    apply list_elem_of_fmap in Hi as (r & Hid & Hin).
    rewrite Forall_forall in Hrs. specialize (Hrs r Hin). cbn in Hid, Hrs. lia.
  - apply Forall_app. split.
    + eapply Forall_impl; [exact Hrs|]. cbn. intros; lia.
    + apply Forall_singleton. cbn. lia.
  - apply Forall_app. split; [done|]. by apply Forall_singleton.
Qed.

Lemma wf_rating_written db db' : wf_db db -> rating_written db db' -> wf_db db'.
Proof.
  intros [Hc Hp Hr Hcs Hrs Hg] Hw.
  pose proof (rating_written_product_ids _ _ Hw) as Hids.
  destruct Hw as (P & q & ->). split; try done.
  cbn [products set_products] in *. by rewrite Hids.
Qed.

Lemma wf_reviews_set_is_active P v db :
  wf_db db ->
  wf_db (set_reviews (update_where P (Review.set_is_active v) (reviews db)) db).
Proof.
  intros [Hc Hp Hr Hcs Hrs Hg]. split; cbn [set_reviews categories products
    reviews categories_id_seq reviews_id_seq]; try done.
  - by rewrite (update_where_keys Review.id).
  - by apply Forall_update_where.
  - by apply Forall_update_where.
Qed.

Lemma create_review_wf review current_user now db r db' :
  wf_db db -> create_review review current_user now db = (Ok r, db') -> wf_db db'.
Proof.
  intros Hwf (_ & Hgrade & _ & _ & _ & Hw & _)%create_review_Ok.
  eapply wf_rating_written; [|done]. by apply wf_with_new_review.
Qed.

Lemma delete_review_wf review_id current_user db v db' :
  wf_db db -> delete_review review_id current_user db = (Ok v, db') -> wf_db db'.
Proof.
  intros Hwf (review & _ & _ & _ & _ & Hw & _)%delete_review_Ok.
  eapply wf_rating_written; [|done]. by apply wf_reviews_set_is_active.
Qed.

(** With unique keys, the row that a review create returns is the one it
    added. *)
Lemma create_review_returns review current_user now db r db' :
  wf_db db -> create_review review current_user now db = (Ok r, db') ->
  r = new_review review current_user now db.
Proof.
  intros Hwf Hcreate. pose proof (create_review_wf _ _ _ _ _ _ Hwf Hcreate) as Hwf'.
  apply create_review_Ok in Hcreate as (_ & _ & _ & Hin & Hid & Hw & _).
  apply (key_inj Review.id (reviews db')); [by destruct Hwf'|done| |done].
  rewrite (rating_written_reviews _ _ Hw). cbn [reviews with_new_review].
  apply elem_of_app. right. apply list_elem_of_here.
Qed.

(** The active grades of the reviewed product gain the new grade, at the end. *)
Lemma create_review_grades review current_user now db r db' :
  create_review review current_user now db = (Ok r, db') ->
  active_grades (ReviewCreate.product_id review) db'
  = (active_grades (ReviewCreate.product_id review) db ++ [ReviewCreate.grade review])%list.
Proof.
  intros (_ & _ & _ & _ & _ & Hw & _)%create_review_Ok.
  rewrite (rating_written_active_grades _ _ _ Hw).
  rewrite (active_grades_app _ db _ [new_review review current_user now db]) by done.
  f_equal. rewrite filter_cons, filter_nil. by destruct (decide _) as [|[]].
Qed.

(** * The review lifecycle *)

(** C8: a review create by a buyer whose grade is below 1 or above 5 fails
    with InvalidGrade, and the store, its reviews included, is the one the
    request found. *)
Theorem create_review_invalid_grade review current_user now db :
  User.role current_user = "buyer" ->
  ReviewCreate.grade review < 1 \/ ReviewCreate.grade review > 5 ->
  create_review review current_user now db = (Raise InvalidGrade, db).
Proof.
  intros Hrole Hgrade. rewrite create_review_unfold, Hrole.
  cbn [String.eqb Ascii.eqb Bool.eqb negb andb].
  by replace (_ || _) with true by lia.
Qed.

Lemma create_review_invalid_grade_witness :
  create_review (ReviewCreate.mk 1 (Some "too good") 6) buyer 10 shop
  = (Raise InvalidGrade, shop)
  /\ create_review (ReviewCreate.mk 1 None 0) buyer 10 shop_reviewed
     = (Raise InvalidGrade, shop_reviewed).
Proof.
  split.
  - apply create_review_invalid_grade; [reflexivity | right; reflexivity].
  - apply create_review_invalid_grade; [reflexivity | left; reflexivity].
Defined.

(** No active row under a key: the soft-delete reports ReviewNotFound and
    writes nothing. *)
Lemma delete_review_none_active review_id current_user db :
  (forall r, r ∈ reviews db -> Review.id r = review_id -> Review.is_active r = false) ->
  delete_review review_id current_user db = (Raise ReviewNotFound, db).
Proof.
  intros Hnone. rewrite delete_review_unfold.
  assert (first (select_where
                   (fun r => (Review.id r =? review_id) && Review.is_active r)
                   (reviews db)) = None) as ->; [|done].
  apply first_select_None. intros r Hin.
  destruct (Z.eqb_spec (Review.id r) review_id) as [Hid|]; [|done].
  by rewrite (Hnone r Hin Hid).
Qed.

(** C9: the soft-delete of a review is not idempotent. For a review whose
    is_active is already false, delete_review on its id fails with
    ReviewNotFound and leaves the store as it was. The caller is whoever
    the admin gate of the route let through. *)
Theorem delete_review_inactive review current_user db :
  NoDup (Review.id <$> reviews db) ->
  review ∈ reviews db ->
  Review.is_active review = false ->
  delete_review (Review.id review) current_user db = (Raise ReviewNotFound, db).
Proof.
  intros Hnd Hin Hinactive. apply delete_review_none_active.
  intros r Hr Hid. by rewrite (key_inj Review.id (reviews db) r review).
Qed.

Lemma delete_review_inactive_witness :
  delete_review 3 admin shop_moderated = (Raise ReviewNotFound, shop_moderated).
Proof.
  apply (delete_review_inactive (Review.mk 3 9 1 None 30 3 false) admin shop_moderated).
  - apply (bool_decide_unpack _). vm_compute. exact I.
  - vm_compute. repeat constructor.
  - reflexivity.
Defined.

(** Deleting twice: the second request is refused whatever the first one
    deleted. *)
Lemma delete_review_twice review_id current_user current_user' db v db' :
  delete_review review_id current_user db = (Ok v, db') ->
  delete_review review_id current_user' db' = (Raise ReviewNotFound, db').
Proof.
  intros (review & _ & _ & _ & _ & Hw & _)%delete_review_Ok.
  apply delete_review_none_active. rewrite (rating_written_reviews _ _ Hw).
  cbn [reviews set_reviews]. unfold update_where.
  intros r (x & -> & Hx)%list_elem_of_fmap Hid.
  destruct (Z.eqb_spec (Review.id x) review_id); [done|].
  cbn in Hid. congruence.
Qed.

(** * The rating aggregate *)

(** C2: for a product without active reviews the recompute succeeds and the
    rating it stores is the number 0. *)
Theorem update_product_rating_default p db :
  p ∈ products db ->
  active_grades (Product.id p) db = [] ->
  exists db',
    update_product_rating (Product.id p) db = (Ok tt, db') /\
    stored_rating (Product.id p) db' = Some 0%Q.
Proof.
  intros Hin Hnone.
  destruct (update_product_rating_total (Product.id p) db p Hin eq_refl) as [db' Hrun].
  exists db'. split; [done|].
  apply update_product_rating_Ok in Hrun as [Hw ->].
  unfold rating_spec. by rewrite (rating_written_active_grades _ _ _ Hw), Hnone.
Qed.

Lemma update_product_rating_default_witness :
  exists db',
    update_product_rating 1 shop = (Ok tt, db') /\ stored_rating 1 db' = Some 0%Q.
Proof.
  apply (update_product_rating_default (Product.mk 1 1 7 (10 # 1) 3 0 true) shop).
  - vm_compute. repeat constructor.
  - reflexivity.
Defined.

Lemma create_review_reviews review current_user now db r db' :
  create_review review current_user now db = (Ok r, db') ->
  reviews db' = (reviews db ++ [new_review review current_user now db])%list.
Proof.
  intros (_ & _ & _ & _ & _ & Hw & _)%create_review_Ok.
  by rewrite (rating_written_reviews _ _ Hw).
Qed.

Lemma create_review_active_product review current_user now db r db' product_id :
  create_review review current_user now db = (Ok r, db') ->
  active_product product_id db -> active_product product_id db'.
Proof.
  intros (_ & _ & _ & _ & _ & Hw & _)%create_review_Ok Hactive.
  by apply (rating_written_active_product _ _ _ Hw).
Qed.



Lemma shop_wf : wf_db shop.
Proof.
  split; cbn.
  - apply (bool_decide_unpack _). vm_compute. exact I.
  - apply NoDup_singleton.
  - apply NoDup_nil_2.
  - repeat constructor.
  - constructor.
  - constructor.
Qed.

Lemma shop_active_product : active_product 1 shop.
Proof. eexists. split; [apply list_elem_of_here | done]. Qed.




(** * Grades and the range of the rating *)

Lemma active_grades_in_range product_id db :
  wf_db db -> Forall (λ g, 1 <= g <= 5) (active_grades product_id db).
Proof.
  intros Hwf. unfold active_grades. apply Forall_fmap.
  pose proof (wf_check_grade db Hwf) as Hcheck. rewrite Forall_forall in Hcheck |- *.
  intros r [_ Hin]%list_elem_of_filter. by apply Hcheck.
Qed.

Lemma rating_spec_range product_id db :
  wf_db db ->
  (active_grades product_id db = [] /\ rating_spec product_id db = 0%Q) \/
  (active_grades product_id db <> [] /\
   (1 <= rating_spec product_id db)%Q /\ (rating_spec product_id db <= 5)%Q).
Proof.
  intros Hwf. pose proof (active_grades_in_range product_id db Hwf) as Hrange.
  unfold rating_spec. destruct (active_grades product_id db) as [|g grades] eqn:E.
  - by left.
  - right. split; [done|]. by apply stored_mean_bounds.
Qed.

(** C10: on a store that satisfies its constraints, the rating stored by a
    successful review create lies between 1 and 5, and the rating stored by
    a successful review soft-delete is 0 when the product is left without
    active reviews and lies between 1 and 5 otherwise; over a nonempty list
    of grades between 1 and 5 the aggregate yields a number between 1 and 5,
    which [or] keeps, and the double stored for it lies between 1 and 5: it
    is not the default 0. *)
Theorem rating_zero_or_in_grade_range :
  (forall review current_user now db r db',
     wf_db db ->
     create_review review current_user now db = (Ok r, db') ->
     exists q,
       stored_rating (ReviewCreate.product_id review) db' = Some q /\
       (1 <= q)%Q /\ (q <= 5)%Q)
  /\
  (forall review_id current_user db v db',
     wf_db db ->
     delete_review review_id current_user db = (Ok v, db') ->
     exists review q,
       review ∈ reviews db /\ Review.id review = review_id /\
       stored_rating (Review.product_id review) db' = Some q /\
       ((active_grades (Review.product_id review) db' = [] /\ q = 0%Q) \/
        (active_grades (Review.product_id review) db' <> [] /\
         (1 <= q)%Q /\ (q <= 5)%Q)))
  /\
  (forall grades,
     grades <> [] -> Forall (λ g, 1 <= g <= 5) grades ->
     exists q,
       avg grades = Some q /\ (1 <= q)%Q /\ (q <= 5)%Q /\
       or_zero (avg grades) = q /\
       (1 <= float8 q)%Q /\ (float8 q <= 5)%Q /\
       ~ (float8 (or_zero (avg grades)) == 0)%Q).
Proof.
  split; [|split].
  - intros review current_user now db r db' Hwf Hcreate.
    pose proof (create_review_wf _ _ _ _ _ _ Hwf Hcreate) as Hwf'.
    pose proof (create_review_grades _ _ _ _ _ _ Hcreate) as Hgrades.
    apply create_review_Ok in Hcreate as (_ & _ & _ & _ & _ & _ & Hstored).
    eexists. split; [exact Hstored|].
    destruct (rating_spec_range (ReviewCreate.product_id review) db' Hwf')
      as [[Hnone _]|[_ Hrange]]; [|done].
    rewrite Hgrades in Hnone. by destruct (active_grades _ db).
  - intros review_id current_user db v db' Hwf Hdelete.
    pose proof (delete_review_wf _ _ _ _ _ Hwf Hdelete) as Hwf'.
    apply delete_review_Ok in Hdelete as (review & Hin & Hid & _ & _ & _ & Hstored).
    exists review, (rating_spec (Review.product_id review) db').
    repeat split; try done. by apply rating_spec_range.
  - intros grades Hne Hrange.
    pose proof (foldr_add_bounds grades Hrange) as [Hlo Hhi].
    assert (Hlen : 0 < Z.of_nat (length grades)) by (destruct grades; [done | simpl; lia]).
    destruct (div_var_bounds (foldr Z.add 0 grades) (Z.of_nat (length grades))
                (select_div_scale (foldr Z.add 0 grades) (Z.of_nat (length grades))) 1 5)
      as [H1 H5]; [done | apply select_div_scale_nonneg | lia | lia |].
    fold (numeric_div (foldr Z.add 0 grades) (Z.of_nat (length grades))) in H1, H5.
    destruct (float8_bounds _ H1 H5) as [Hf1 Hf5].
    assert (Hkept : or_zero (avg grades)
                    = numeric_div (foldr Z.add 0 grades) (Z.of_nat (length grades))).
    { rewrite avg_numeric by done. unfold or_zero.
      destruct (Qeq_bool _ 0) eqn:E; [|done].
      apply Qeq_bool_eq in E. rewrite E in H1. by destruct H1. }
    eexists. split; [by apply avg_numeric|]. repeat split; try done.
    rewrite Hkept. intros Hzero. rewrite Hzero in Hf1. by apply Hf1.
Qed.

Lemma rating_zero_or_in_grade_range_witness :
  (exists q, stored_rating 1 shop_reviewed = Some q /\ (1 <= q)%Q /\ (q <= 5)%Q) /\
  (exists q,
     avg [4; 5; 3] = Some q /\ (1 <= q)%Q /\ (q <= 5)%Q /\
     or_zero (avg [4; 5; 3]) = q /\
     (1 <= float8 q)%Q /\ (float8 q <= 5)%Q /\
     ~ (float8 (or_zero (avg [4; 5; 3]%Z)) == 0)%Q).
Proof.
  split.
  - apply (proj1 rating_zero_or_in_grade_range (ReviewCreate.mk 1 None 3) buyer 30
             (store_after (create_review (ReviewCreate.mk 1 (Some "fine") 5) buyer 20)
                (store_after (create_review (ReviewCreate.mk 1 None 4) buyer 10) shop))
             (Review.mk 3 9 1 None 30 3 true)).
    + split; cbn.
      * apply (bool_decide_unpack _). vm_compute. exact I.
      * apply NoDup_singleton.
      * apply (bool_decide_unpack _). vm_compute. exact I.
      * repeat constructor.
      * vm_compute. repeat constructor.
      * vm_compute. repeat constructor; discriminate.
    + vm_compute. reflexivity.
  - apply (proj2 (proj2 rating_zero_or_in_grade_range) [4; 5; 3]); [done|].
    repeat constructor; discriminate.
Defined.

(** * The category tree *)

Lemma create_category_unfold category db :
  create_category category db =
  let db1 :=
    mkDB (categories db ++
            [Category.mk (categories_id_seq db) (CategoryCreate.parent_id category)
               (CategoryCreate.name category) true])
         (products db) (reviews db) (categories_id_seq db + 1) (reviews_id_seq db) in
  let added :=
    match first (select_where (fun c => Category.id c =? categories_id_seq db)
                   (categories db1)) with
    | Some db_category => (Ok db_category, db1)
    | None => (Raise (InvalidRequestError "Could not refresh instance"), db1)
    end in
  match CategoryCreate.parent_id category with
  | Some parent_id =>
      match first (select_where (fun c => Category.id c =? parent_id) (categories db)) with
      | Some _ => added
      | None => (Raise ParentNotFound, db)
      end
  | None => added
  end.
Proof.
  unfold create_category, add_category, refresh_category. run_handler. cbn zeta.
  destruct (CategoryCreate.parent_id category) as [parent_id|]; cbn.
  - destruct (first (select_where _ (categories db))); cbn; [|done].
    by destruct (first _).
  - by destruct (first _).
Qed.

Lemma update_category_unfold category_id category db :
  update_category category_id category db =
  match first (select_where (fun c => Category.id c =? category_id) (categories db)) with
  | None => (Raise CategoryNotFound, db)
  | Some db_category =>
      let db1 :=
        set_categories
          (update_where (fun c => Category.id c =? category_id) (update_data category)
             (categories db)) db in
      let updated :=
        match first (select_where (fun c => Category.id c =? Category.id db_category)
                       (categories db1)) with
        | Some c => (Ok c, db1)
        | None => (Raise (InvalidRequestError "Could not refresh instance"), db1)
        end in
      match CategoryCreate.parent_id category with
      | Some parent_id =>
          match first (select_where (fun c => Category.id c =? parent_id)
                         (categories db)) with
          | None => (Raise ParentNotFound, db)
          | Some parent =>
              if Category.id parent =? category_id then (Raise SelfParentError, db)
              else updated
          end
      | None => updated
      end
  end.
Proof.
  unfold update_category, refresh_category. run_handler.
  destruct (first (select_where _ (categories db))) as [db_category|]; cbn; [|done].
  destruct (CategoryCreate.parent_id category) as [parent_id|]; cbn.
  - destruct (first (select_where _ (categories db))) as [parent|]; cbn; [|done].
    destruct (Category.id parent =? category_id); cbn; [done|].
    by destruct (first _).
  - by destruct (first _).
Qed.

(** The soft-delete of a category stops at [result.first()], whatever the
    lookup returned. *)
Lemma delete_category_raises category_id db :
  exists msg, delete_category category_id db = (Raise (AttributeError msg), db).
Proof. unfold delete_category, scalar_value_first. run_handler. by eexists. Qed.

(** The soft-delete of a product stops while its first statement is built. *)
Lemma delete_product_raises product_id current_user db :
  exists msg, delete_product product_id current_user db = (Raise (TypeError msg), db).
Proof. unfold delete_product, between. run_handler. by eexists. Qed.

(** C7: updating an existing category with its own id as parent_id fails
    with SelfParentError and writes nothing: the store, and with it every
    field of the category, is as before. *)
Theorem update_category_self_parent c category db :
  c ∈ categories db ->
  CategoryCreate.parent_id category = Some (Category.id c) ->
  update_category (Category.id c) category db = (Raise SelfParentError, db).
Proof.
  intros Hin Hparent. rewrite update_category_unfold, Hparent.
  destruct (first_select_is_Some (fun x => Category.id x =? Category.id c)
              (categories db) c Hin (Z.eqb_refl _)) as [found Hfound].
  rewrite Hfound. cbn zeta.
  apply first_select_Some in Hfound as [_ ->]. done.
Qed.

Lemma update_category_self_parent_witness :
  update_category 1 (CategoryCreate.mk "books" (Given (Some 1))) shop
  = (Raise SelfParentError, shop).
Proof.
  apply (update_category_self_parent (Category.mk 1 None "books" true)
           (CategoryCreate.mk "books" (Given (Some 1))) shop).
  - apply list_elem_of_here.
  - reflexivity.
Defined.

(** C5 as the specification states it does not hold: a category whose
    parent is the soft-deleted category 2 is created. *)
Lemma create_category_inactive_parent_accepted :
  Category.mk 2 None "music" false ∈ categories shop /\
  create_category (CategoryCreate.mk "jazz" (Given (Some 2))) shop
  = (Ok (Category.mk 3 (Some 2) "jazz" true),
     mkDB [Category.mk 1 None "books" true; Category.mk 2 None "music" false;
           Category.mk 3 (Some 2) "jazz" true]
          (products shop) (reviews shop) 4 1).
Proof. split; [repeat constructor | reflexivity]. Qed.

(** C5, amended: a category create whose parent_id names no category of the
    store fails with ParentNotFound and adds no row; one whose parent_id
    names a category of the store, active or soft-deleted, succeeds and
    adds the new active category under that parent. *)
Theorem create_category_parent_must_exist category parent_id db :
  CategoryCreate.parent_id category = Some parent_id ->
  ((forall c, c ∈ categories db -> Category.id c <> parent_id) ->
   create_category category db = (Raise ParentNotFound, db))
  /\
  (forall parent,
     parent ∈ categories db -> Category.id parent = parent_id ->
     exists db_category,
       create_category category db
       = (Ok db_category,
          mkDB (categories db ++
                  [Category.mk (categories_id_seq db) (Some parent_id)
                     (CategoryCreate.name category) true])
               (products db) (reviews db) (categories_id_seq db + 1) (reviews_id_seq db))
       /\ Category.id db_category = categories_id_seq db).
Proof.
  intros Hparent. rewrite create_category_unfold, Hparent. cbn zeta. split.
  - intros Hnone.
    assert (first (select_where (fun c => Category.id c =? parent_id) (categories db))
            = None) as ->; [|done].
    apply first_select_None. intros c Hin. apply Z.eqb_neq. by apply Hnone.
  - intros parent Hin Hid.
    destruct (first_select_is_Some (fun c => Category.id c =? parent_id)
                (categories db) parent Hin) as [found ->]; [by apply Z.eqb_eq|].
    cbn [categories].
    destruct (first _) as [db_category|] eqn:Hrefresh.
    + exists db_category. split; [done|].
      apply first_select_Some in Hrefresh as [_ Hkey]. by apply Z.eqb_eq.
    + rewrite first_select_None in Hrefresh.
      specialize (Hrefresh (Category.mk (categories_id_seq db) (Some parent_id)
                              (CategoryCreate.name category) true)).
      cbn in Hrefresh. rewrite Z.eqb_refl in Hrefresh.
      discriminate Hrefresh. apply elem_of_app. right. apply list_elem_of_here.
Qed.

Lemma create_category_parent_must_exist_witness :
  create_category (CategoryCreate.mk "jazz" (Given (Some 5))) shop
  = (Raise ParentNotFound, shop)
  /\ exists db_category,
       create_category (CategoryCreate.mk "jazz" (Given (Some 2))) shop
       = (Ok db_category,
          mkDB (categories shop ++ [Category.mk 3 (Some 2) "jazz" true])
               (products shop) (reviews shop) 4 1)
       /\ Category.id db_category = 3.
Proof.
  split.
  - apply (proj1 (create_category_parent_must_exist
                    (CategoryCreate.mk "jazz" (Given (Some 5))) 5 shop eq_refl)).
    intros c Hin. vm_compute in Hin.
    apply elem_of_cons in Hin as [->|Hin]; [discriminate|].
    apply elem_of_cons in Hin as [->|Hin]; [discriminate|].
    by apply elem_of_nil in Hin.
  - apply (proj2 (create_category_parent_must_exist
                    (CategoryCreate.mk "jazz" (Given (Some 2))) 2 shop eq_refl)
             (Category.mk 2 None "music" false)).
    + repeat constructor.
    + reflexivity.
Defined.

(** C6 as the specification states it does not hold: category 1 is moved
    under the soft-deleted category 2. *)
Lemma update_category_inactive_parent_accepted :
  Category.mk 2 None "music" false ∈ categories shop /\
  update_category 1 (CategoryCreate.mk "books" (Given (Some 2))) shop
  = (Ok (Category.mk 1 (Some 2) "books" true),
     set_categories
       [Category.mk 1 (Some 2) "books" true; Category.mk 2 None "music" false] shop).
Proof. split; [repeat constructor | reflexivity]. Qed.

(** C6, amended: a category update that supplies a parent_id succeeds only
    if that parent_id names a category of the store other than the target;
    whether that parent is active is not looked at, so a soft-deleted parent
    is accepted and the target is rewritten with the request's fields. A
    parent_id that names no category of the store is rejected with
    ParentNotFound, and the store, the target included, is left unchanged. *)
Theorem update_category_parent_must_exist category_id category parent_id db :
  CategoryCreate.parent_id category = Some parent_id ->
  (forall db_category db',
     update_category category_id category db = (Ok db_category, db') ->
     exists parent,
       parent ∈ categories db /\ Category.id parent = parent_id /\
       parent_id <> category_id)
  /\
  (forall target,
     target ∈ categories db -> Category.id target = category_id ->
     (forall c, c ∈ categories db -> Category.id c <> parent_id) ->
     update_category category_id category db = (Raise ParentNotFound, db))
  /\
  (forall target parent,
     target ∈ categories db -> Category.id target = category_id ->
     parent ∈ categories db -> Category.id parent = parent_id ->
     parent_id <> category_id ->
     exists db_category,
       update_category category_id category db
       = (Ok db_category,
          set_categories
            (update_where (fun c => Category.id c =? category_id) (update_data category)
               (categories db)) db)).
Proof.
  intros Hparent. rewrite update_category_unfold, Hparent. split; [|split].
  - intros db_category db'.
    destruct (first (select_where (fun c => Category.id c =? category_id) _))
      as [target|]; [|done].
    cbn zeta.
    destruct (first (select_where (fun c => Category.id c =? parent_id) _))
      as [parent|] eqn:Hfound; [|done].
    apply first_select_Some in Hfound as [Hin Hid%Z.eqb_eq].
    destruct (Z.eqb_spec (Category.id parent) category_id) as [|Hne]; [done|].
    intros _. exists parent. repeat split; [done..|congruence].
  - intros target Hin Hid Hnone.
    destruct (first_select_is_Some (fun c => Category.id c =? category_id)
                (categories db) target Hin) as [found ->]; [by apply Z.eqb_eq|].
    cbn zeta.
    assert (first (select_where (fun c => Category.id c =? parent_id) (categories db))
            = None) as ->; [|done].
    apply first_select_None. intros c Hc. apply Z.eqb_neq. by apply Hnone.
  - intros target parent Hin Hid Hpin Hpid Hne.
    destruct (first_select_is_Some (fun c => Category.id c =? category_id)
                (categories db) target Hin) as [found Hfound]; [by apply Z.eqb_eq|].
    rewrite Hfound. cbn zeta.
    destruct (first_select_is_Some (fun c => Category.id c =? parent_id)
                (categories db) parent Hpin) as [found' Hfound']; [by apply Z.eqb_eq|].
    rewrite Hfound'.
    apply first_select_Some in Hfound' as [_ Hid'%Z.eqb_eq].
    destruct (Z.eqb_spec (Category.id found') category_id) as [|_]; [congruence|].
    cbn [categories set_categories].
    pose proof (first_select_Some _ _ _ Hfound) as [_ Hkey%Z.eqb_eq].
    rewrite Hkey.
    rewrite (first_select_update_where _ _ _ _ found); [by eexists|done|done].
Qed.

Lemma update_category_parent_must_exist_witness :
  update_category 1 (CategoryCreate.mk "books" (Given (Some 5))) shop
  = (Raise ParentNotFound, shop)
  /\ exists db_category,
       update_category 1 (CategoryCreate.mk "books" (Given (Some 2))) shop
       = (Ok db_category,
          set_categories
            (update_where (fun c => Category.id c =? 1)
               (update_data (CategoryCreate.mk "books" (Given (Some 2))))
               (categories shop)) shop).
Proof.
  split.
  - apply (proj1 (proj2 (update_category_parent_must_exist 1
                           (CategoryCreate.mk "books" (Given (Some 5))) 5 shop eq_refl))
             (Category.mk 1 None "books" true)).
    + apply list_elem_of_here.
    + reflexivity.
    + intros c Hin. vm_compute in Hin.
      apply elem_of_cons in Hin as [->|Hin]; [discriminate|].
      apply elem_of_cons in Hin as [->|Hin]; [discriminate|].
      by apply elem_of_nil in Hin.
  - apply (proj2 (proj2 (update_category_parent_must_exist 1
                           (CategoryCreate.mk "books" (Given (Some 2))) 2 shop eq_refl))
             (Category.mk 1 None "books" true) (Category.mk 2 None "music" false)).
    + apply list_elem_of_here.
    + reflexivity.
    + repeat constructor.
    + reflexivity.
    + discriminate.
Defined.

(** C3 fails on the code: the soft-delete of the active category 1 raises
    [AttributeError] and the category stays active. *)
Theorem delete_category_active_raises :
  Category.mk 1 None "books" true ∈ categories shop /\
  delete_category 1 shop
  = (Raise (AttributeError "'int' object has no attribute 'first'"), shop).
Proof. split; [apply list_elem_of_here | reflexivity]. Qed.

(** C4 fails on the code: the soft-delete of the active product 1 by the
    seller who owns it, in the active category 1, raises [TypeError] and the
    product stays active. *)
Theorem delete_product_own_active_raises :
  Product.mk 1 1 7 (10 # 1) 3 0 true ∈ products shop /\
  User.id seller = 7 /\
  Category.mk 1 None "books" true ∈ categories shop /\
  delete_product 1 seller shop
  = (Raise (TypeError
       "ColumnOperators.between() missing 2 required positional arguments: 'cleft' and 'cright'"),
     shop).
Proof. repeat split; try reflexivity; apply list_elem_of_here. Qed.

(** * Every handler keeps the store invariants, whatever its outcome *)

Lemma update_product_rating_keeps_wf product_id db :
  wf_db db -> wf_db (store_after (update_product_rating product_id) db).
Proof.
  intros Hwf. unfold store_after. rewrite update_product_rating_unfold.
  destruct (first _) as [p|]; cbn [snd]; [|done].
  apply (wf_rating_written db); [done|]. by eexists _, _.
Qed.

Lemma create_review_keeps_wf review current_user now db :
  wf_db db -> wf_db (store_after (create_review review current_user now) db).
Proof.
  intros Hwf. unfold store_after. rewrite create_review_unfold.
  destruct (negb _); [done|].
  destruct (_ || _) eqn:Hgrade; [done|].
  destruct (first (select_where _ (products _))) as [product|]; [|done].
  cbn zeta.
  assert (Hwf1 : wf_db (with_new_review review current_user now db)).
  { apply wf_with_new_review; [done | lia]. }
  destruct (first (select_where _ (reviews _))) as [db_review|]; [|done].
  pose proof (update_product_rating_keeps_wf (Product.id product) _ Hwf1) as Hwf2.
  unfold store_after in Hwf2.
  by destruct (update_product_rating _ _) as [[[]|e] db2].
Qed.

Lemma delete_review_keeps_wf review_id current_user db :
  wf_db db -> wf_db (store_after (delete_review review_id current_user) db).
Proof.
  intros Hwf. unfold store_after. rewrite delete_review_unfold.
  destruct (first (select_where _ (reviews _))) as [review|]; [|done].
  destruct (first (select_where _ (products _))) as [product|]; [|done].
  cbn zeta.
  pose proof (update_product_rating_keeps_wf (Product.id product) _
                (wf_reviews_set_is_active
                   (fun r => Review.id r =? Review.id review) false db Hwf)) as Hwf2.
  unfold store_after in Hwf2.
  by destruct (update_product_rating _ _) as [[[]|e] db2].
Qed.

Lemma wf_with_new_category category db :
  wf_db db ->
  wf_db (mkDB (categories db ++
                 [Category.mk (categories_id_seq db) (CategoryCreate.parent_id category)
                    (CategoryCreate.name category) true])
              (products db) (reviews db) (categories_id_seq db + 1) (reviews_id_seq db)).
Proof.
  intros [Hc Hp Hr Hcs Hrs Hg]. split; cbn [categories products reviews
    categories_id_seq reviews_id_seq]; try done.
  - rewrite fmap_app. apply NoDup_app. split; [done|]. split; [|apply NoDup_singleton].
    intros i Hi ->%list_elem_of_singleton.
    apply list_elem_of_fmap in Hi as (c & Hid & Hin).
    rewrite Forall_forall in Hcs. specialize (Hcs c Hin). cbn in Hid, Hcs. lia.
  - apply Forall_app. split.
    + eapply Forall_impl; [exact Hcs|]. cbn. intros; lia.
    + apply Forall_singleton. cbn. lia.
Qed.

Lemma create_category_keeps_wf category db :
  wf_db db -> wf_db (store_after (create_category category) db).
Proof.
  intros Hwf. unfold store_after. rewrite create_category_unfold. cbn zeta.
  pose proof (wf_with_new_category category db Hwf) as Hwf1.
  destruct (CategoryCreate.parent_id category) as [parent_id|].
  - destruct (first (select_where _ (categories db))); [|done]. by destruct (first _).
  - by destruct (first _).
Qed.

Lemma wf_update_data category_id category db :
  wf_db db ->
  wf_db (set_categories
           (update_where (fun c => Category.id c =? category_id) (update_data category)
              (categories db)) db).
Proof.
  intros [Hc Hp Hr Hcs Hrs Hg]. split; cbn [set_categories categories products reviews
    categories_id_seq reviews_id_seq]; try done.
  - by rewrite (update_where_keys Category.id).
  - by apply Forall_update_where.
Qed.

Lemma update_category_keeps_wf category_id category db :
  wf_db db -> wf_db (store_after (update_category category_id category) db).
Proof.
  intros Hwf. unfold store_after. rewrite update_category_unfold.
  pose proof (wf_update_data category_id category db Hwf) as Hwf1.
  destruct (first (select_where _ (categories db))) as [db_category|]; [|done].
  cbn zeta.
  destruct (CategoryCreate.parent_id category) as [parent_id|].
  - destruct (first (select_where _ (categories db))) as [parent|]; [|done].
    destruct (Category.id parent =? category_id); [done|]. by destruct (first _).
  - by destruct (first _).
Qed.

Lemma delete_category_keeps_store category_id db :
  store_after (delete_category category_id) db = db.
Proof.
  unfold store_after. by destruct (delete_category_raises category_id db) as [msg ->].
Qed.

Lemma delete_product_keeps_store product_id current_user db :
  store_after (delete_product product_id current_user) db = db.
Proof.
  unfold store_after.
  by destruct (delete_product_raises product_id current_user db) as [msg ->].
Qed.

(** * Beyond the claims: the review handlers *)

(** The recompute, spelled out: the rows under the product's key get the
    specified rating and nothing else changes. *)
Lemma update_product_rating_exact product_id db db' :
  update_product_rating product_id db = (Ok tt, db') ->
  db' = set_products
          (update_where (fun p => Product.id p =? product_id)
             (Product.set_rating (rating_spec product_id db)) (products db)) db.
Proof.
  rewrite update_product_rating_unfold.
  destruct (first _) as [p|] eqn:Hp; [|done]. intros [= <-].
  apply first_select_Some in Hp as [_ Hid%Z.eqb_eq]. by rewrite Hid.
Qed.

(** X1: a review create fails in three ways only, the wrong role, a grade
    out of range or a product that is missing or inactive, and a failed
    create leaves the store as it was. *)
Theorem create_review_failure review current_user now db e db' :
  create_review review current_user now db = (Raise e, db') ->
  db' = db /\ (e = ForbiddenRole \/ e = InvalidGrade \/ e = ProductNotFound).
Proof.
  intros Hfail. rewrite create_review_unfold in Hfail.
  destruct (String.eqb_spec (User.role current_user) "buyer") as [Hrole|];
    cbn [negb] in Hfail; [|injection Hfail as <- <-; auto].
  destruct (_ || _) eqn:Hgrade; [injection Hfail as <- <-; auto|].
  destruct (first (select_where _ (products _))) as [product|] eqn:Hproduct;
    [|injection Hfail as <- <-; auto].
  exfalso.
  destruct (create_review_success review current_user now db Hrole) as (r & db2 & Hok).
  - lia.
  - apply active_product_first. by eexists.
  - rewrite create_review_unfold in Hok.
    destruct (String.eqb_spec (User.role current_user) "buyer"); [|done].
    cbn [negb] in Hok. rewrite Hgrade, Hproduct in Hok. cbn zeta in *. congruence.
Qed.

Lemma create_review_failure_witness :
  shop = shop /\
  (HTTPException 404 "Product not found or inactive" = ForbiddenRole \/
   HTTPException 404 "Product not found or inactive" = InvalidGrade \/
   HTTPException 404 "Product not found or inactive" = ProductNotFound).
Proof.
  apply (create_review_failure (ReviewCreate.mk 8 None 4) buyer 10 shop).
  reflexivity.
Defined.

(** X2: the role is checked first. Whoever is not a buyer is refused with
    the 403 of the handler, whatever the grade and the product of the
    request, and nothing is written. *)
Theorem create_review_not_buyer review current_user now db :
  User.role current_user <> "buyer" ->
  create_review review current_user now db = (Raise ForbiddenRole, db).
Proof.
  intros Hrole. rewrite create_review_unfold.
  by destruct (String.eqb_spec (User.role current_user) "buyer").
Qed.

Lemma create_review_not_buyer_witness :
  create_review (ReviewCreate.mk 8 None 9) seller 10 shop = (Raise ForbiddenRole, shop).
Proof. apply create_review_not_buyer. discriminate. Defined.

(** X3: a buyer's review with a grade in range for a product that is not in
    the store, or is soft-deleted, fails with ProductNotFound and nothing is
    written. *)
Theorem create_review_product_not_active review current_user now db :
  User.role current_user = "buyer" ->
  1 <= ReviewCreate.grade review <= 5 ->
  ~ active_product (ReviewCreate.product_id review) db ->
  create_review review current_user now db = (Raise ProductNotFound, db).
Proof.
  intros Hrole Hgrade Hnone. rewrite create_review_unfold, Hrole.
  cbn [String.eqb Ascii.eqb Bool.eqb negb andb].
  replace (_ || _) with false by lia.
  destruct (first _) as [product|] eqn:Hproduct; [|done].
  exfalso. apply Hnone, active_product_first. by eexists.
Qed.

Lemma shop_delisted_no_active_product : ~ active_product 1 shop_delisted.
Proof.
  intros (p & Hin & Hid & Hact). vm_compute in Hin.
  apply list_elem_of_singleton in Hin as ->. discriminate.
Qed.

Lemma create_review_product_not_active_witness :
  create_review (ReviewCreate.mk 1 None 4) buyer 40 shop_delisted
  = (Raise ProductNotFound, shop_delisted).
Proof.
  apply create_review_product_not_active.
  - reflexivity.
  - cbn. lia.
  - exact shop_delisted_no_active_product.
Defined.

(** The store that a successful review create leaves, as the model keeps
    it. *)
Lemma create_review_store review current_user now db :
  wf_db db ->
  User.role current_user = "buyer" ->
  1 <= ReviewCreate.grade review <= 5 ->
  active_product (ReviewCreate.product_id review) db ->
  create_review review current_user now db
  = (Ok (Review.mk (reviews_id_seq db) (User.id current_user)
           (ReviewCreate.product_id review) (ReviewCreate.comment review) now
           (ReviewCreate.grade review) true),
     mkDB (categories db)
          (update_where (fun p => Product.id p =? ReviewCreate.product_id review)
             (Product.set_rating
                (stored_mean
                   (active_grades (ReviewCreate.product_id review) db
                    ++ [ReviewCreate.grade review])))
             (products db))
          (reviews db ++ [Review.mk (reviews_id_seq db) (User.id current_user)
                            (ReviewCreate.product_id review)
                            (ReviewCreate.comment review) now
                            (ReviewCreate.grade review) true])
          (categories_id_seq db) (reviews_id_seq db + 1)).
Proof.
  intros Hwf Hrole Hgrade Hactive.
  destruct (create_review_success review current_user now db Hrole Hgrade Hactive)
    as (r & db' & Hok).
  pose proof (create_review_returns _ _ _ _ _ _ Hwf Hok) as ->.
  pose proof (create_review_grades _ _ _ _ _ _ Hok) as Hgrades.
  rewrite Hok. f_equal.
  rewrite create_review_unfold in Hok.
  destruct (negb _); [done|]. destruct (_ || _); [done|].
  destruct (first (select_where _ (products _))) as [product|] eqn:Hproduct; [|done].
  cbn zeta in Hok.
  destruct (first (select_where _ (reviews _))) as [db_review|]; [|done].
  destruct (update_product_rating _ _) as [[[]|e] db2] eqn:Hrating; [|done].
  injection Hok as _ <-.
  apply first_select_Some in Hproduct as [_ [_ Hid%Z.eqb_eq]%andb_prop].
  rewrite Hid in Hrating. apply update_product_rating_exact in Hrating as ->.
  unfold set_products, with_new_review. cbn [categories products reviews
    categories_id_seq reviews_id_seq]. f_equal. f_equal. f_equal.
  unfold rating_spec.
  rewrite (active_grades_app _ db _ [new_review review current_user now db]) by done.
  rewrite filter_cons, filter_nil. destruct (decide _) as [|[]]; [|done].
  cbn [fmap list_fmap new_review Review.grade].
  by destruct (active_grades _ db).
Qed.

(** X4: what a successful review create leaves behind, in full. A buyer's
    review with a grade in range of an active product succeeds on a
    well-formed store; it returns the new row (key from the sequence, the
    caller as author, the request's fields, active); the reviews afterwards
    are the former ones and that row, the review sequence is advanced, the
    rating of the reviewed product is the stored mean (numeric quotient, as
    a double) of its former active grades and the new one, and nothing else
    changes. *)
Theorem create_review_effect review current_user now db :
  wf_db db ->
  User.role current_user = "buyer" ->
  1 <= ReviewCreate.grade review <= 5 ->
  active_product (ReviewCreate.product_id review) db ->
  let row :=
    Review.mk (reviews_id_seq db) (User.id current_user)
      (ReviewCreate.product_id review) (ReviewCreate.comment review) now
      (ReviewCreate.grade review) true in
  exists db',
    create_review review current_user now db = (Ok row, db') /\
    categories db' = categories db /\
    products db' ≡ₚ
      update_where (fun p => Product.id p =? ReviewCreate.product_id review)
        (Product.set_rating
           (stored_mean
              (active_grades (ReviewCreate.product_id review) db
               ++ [ReviewCreate.grade review])))
        (products db) /\
    reviews db' ≡ₚ row :: reviews db /\
    categories_id_seq db' = categories_id_seq db /\
    reviews_id_seq db' = reviews_id_seq db + 1.
Proof.
  intros Hwf Hrole Hgrade Hactive row.
  eexists. split; [by apply create_review_store|].
  cbn [categories products reviews categories_id_seq reviews_id_seq].
  repeat split; try done. by rewrite Permutation_app_comm.
Qed.

Lemma create_review_effect_witness :
  exists db',
    create_review (ReviewCreate.mk 1 (Some "good") 4) buyer 10 shop
    = (Ok (Review.mk 1 9 1 (Some "good") 10 4 true), db') /\
    categories db' = categories shop /\
    products db' ≡ₚ
      update_where (fun p => Product.id p =? 1)
        (Product.set_rating (stored_mean (active_grades 1 shop ++ [4])))
        (products shop) /\
    reviews db' ≡ₚ Review.mk 1 9 1 (Some "good") 10 4 true :: reviews shop /\
    categories_id_seq db' = 3 /\
    reviews_id_seq db' = 2.
Proof.
  apply (create_review_effect (ReviewCreate.mk 1 (Some "good") 4) buyer 10 shop).
  - exact shop_wf.
  - reflexivity.
  - cbn. lia.
  - exact shop_active_product.
Defined.

(** X5: for an id that the review key can hold, a review soft-delete fails
    in two ways only, no active review under the id or a product of the
    review that is missing or inactive, and a failed soft-delete leaves the
    store as it was. *)
Theorem delete_review_failure review_id current_user db e db' :
  int4 review_id ->
  delete_review review_id current_user db = (Raise e, db') ->
  db' = db /\ (e = ReviewNotFound \/ e = ProductNotFound).
Proof.
  intros _. rewrite delete_review_unfold.
  destruct (first (select_where _ (reviews _))) as [review|]; [|intros [= <- <-]; auto].
  destruct (first (select_where _ (products _))) as [product|] eqn:Hproduct;
    [|intros [= <- <-]; auto].
  cbn zeta. apply first_select_Some in Hproduct as [Hin _].
  destruct (update_product_rating_total (Product.id product)
              (set_reviews
                 (update_where (fun r => Review.id r =? Review.id review)
                    (Review.set_is_active false) (reviews db)) db) product Hin eq_refl)
    as [db2 ->].
  done.
Qed.

Lemma delete_review_failure_witness :
  shop = shop /\
  (HTTPException 404 "Review not found or inactive" = ReviewNotFound \/
   HTTPException 404 "Review not found or inactive" = ProductNotFound).
Proof.
  apply (delete_review_failure 5 admin shop); [unfold int4; lia | reflexivity].
Defined.

(** X6: the review of a product that has been soft-deleted, or is gone,
    cannot be soft-deleted: the request fails with ProductNotFound and the
    review stays active. *)
Theorem delete_review_product_not_active review current_user db :
  NoDup (Review.id <$> reviews db) ->
  review ∈ reviews db -> Review.is_active review = true ->
  ~ active_product (Review.product_id review) db ->
  delete_review (Review.id review) current_user db = (Raise ProductNotFound, db).
Proof.
  intros Hnd Hin Hact Hnone. rewrite delete_review_unfold.
  rewrite (first_select_by_key Review.id _ _ review); try done.
  - destruct (first _) as [product|] eqn:Hproduct; [|done].
    exfalso. apply Hnone, active_product_first'. by eexists.
  - rewrite Z.eqb_refl. by rewrite Hact.
  - by intros x [?%Z.eqb_eq _]%andb_prop.
Qed.

Lemma delete_review_product_not_active_witness :
  delete_review 1 admin shop_delisted = (Raise ProductNotFound, shop_delisted).
Proof.
  apply (delete_review_product_not_active (Review.mk 1 9 1 None 10 4 true) admin
           shop_delisted).
  - apply (bool_decide_unpack _). vm_compute. exact I.
  - vm_compute. repeat constructor.
  - reflexivity.
  - exact shop_delisted_no_active_product.
Defined.

(** The store that a successful review soft-delete leaves, as the model
    keeps it. *)
Lemma delete_review_store review current_user db :
  NoDup (Review.id <$> reviews db) ->
  review ∈ reviews db -> Review.is_active review = true ->
  active_product (Review.product_id review) db ->
  let reviews' :=
    update_where (fun r => Review.id r =? Review.id review)
      (Review.set_is_active false) (reviews db) in
  delete_review (Review.id review) current_user db
  = (Ok [("message", "Review deleted")],
     mkDB (categories db)
          (update_where (fun p => Product.id p =? Review.product_id review)
             (Product.set_rating
                (rating_spec (Review.product_id review) (set_reviews reviews' db)))
             (products db))
          reviews' (categories_id_seq db) (reviews_id_seq db)).
Proof.
  intros Hnd Hin Hact Hactive reviews'.
  destruct (delete_review_success review current_user db Hnd Hin Hact Hactive)
    as (db' & Hok & _ & _).
  rewrite Hok. f_equal.
  rewrite delete_review_unfold in Hok.
  rewrite (first_select_by_key Review.id _ _ review) in Hok; try done.
  - destruct (first (select_where _ (products _))) as [product|] eqn:Hproduct; [|done].
    cbn zeta in Hok.
    destruct (update_product_rating _ _) as [[[]|e] db2] eqn:Hrating; [|done].
    injection Hok as <-.
    apply first_select_Some in Hproduct as [_ [Hid%Z.eqb_eq _]%andb_prop].
    rewrite Hid in Hrating. by apply update_product_rating_exact in Hrating as ->.
  - rewrite Z.eqb_refl. by rewrite Hact.
  - by intros x [?%Z.eqb_eq _]%andb_prop.
Qed.

(** X7: what a successful review soft-delete leaves behind, in full. With
    unique review keys, the soft-delete of an active review of an active
    product succeeds; afterwards the reviews are the former ones with those
    under the review's key inactive, the products are the former ones with
    the rating under the product's key set to the stored mean (numeric
    quotient, as a double) of the remaining active grades, 0 when none
    remains, and nothing else changes: no row is removed. *)
Theorem delete_review_effect review current_user db :
  NoDup (Review.id <$> reviews db) ->
  review ∈ reviews db -> Review.is_active review = true ->
  active_product (Review.product_id review) db ->
  exists db',
    delete_review (Review.id review) current_user db
    = (Ok [("message", "Review deleted")], db') /\
    categories db' = categories db /\
    reviews db' ≡ₚ
      update_where (fun r => Review.id r =? Review.id review)
        (Review.set_is_active false) (reviews db) /\
    products db' ≡ₚ
      update_where (fun p => Product.id p =? Review.product_id review)
        (Product.set_rating
           (match active_grades (Review.product_id review) db' with
            | [] => 0%Q
            | grades => stored_mean grades
            end))
        (products db) /\
    categories_id_seq db' = categories_id_seq db /\
    reviews_id_seq db' = reviews_id_seq db.
Proof.
  intros Hnd Hin Hact Hactive.
  eexists. split; [by apply delete_review_store|].
  cbn [categories products reviews categories_id_seq reviews_id_seq].
  repeat split; done.
Qed.

Lemma delete_review_effect_witness :
  exists db',
    delete_review 3 admin shop_reviewed = (Ok [("message", "Review deleted")], db') /\
    categories db' = categories shop_reviewed /\
    reviews db' ≡ₚ
      update_where (fun r => Review.id r =? 3) (Review.set_is_active false)
        (reviews shop_reviewed) /\
    products db' ≡ₚ
      update_where (fun p => Product.id p =? 1)
        (Product.set_rating
           (match active_grades 1 db' with
            | [] => 0%Q
            | grades => stored_mean grades
            end))
        (products shop_reviewed) /\
    categories_id_seq db' = categories_id_seq shop_reviewed /\
    reviews_id_seq db' = reviews_id_seq shop_reviewed.
Proof.
  apply (delete_review_effect (Review.mk 3 9 1 None 30 3 true) admin shop_reviewed).
  - apply (bool_decide_unpack _). vm_compute. exact I.
  - vm_compute. repeat constructor.
  - reflexivity.
  - exists (Product.mk 1 1 7 (10 # 1) 3 4 true).
    split; [vm_compute; repeat constructor | done].
Defined.

(** X8: soft-deleting is final. Once a soft-delete under an id has
    succeeded, every later soft-delete under that id is refused with
    ReviewNotFound and writes nothing. *)
Theorem delete_review_again review_id current_user current_user' db v db' :
  delete_review review_id current_user db = (Ok v, db') ->
  delete_review review_id current_user' db' = (Raise ReviewNotFound, db').
Proof. apply delete_review_twice. Qed.

Lemma delete_review_again_witness :
  delete_review 3 admin shop_moderated = (Raise ReviewNotFound, shop_moderated).
Proof.
  apply (delete_review_again 3 admin admin shop_reviewed
           [("message", "Review deleted")] shop_moderated).
  reflexivity.
Defined.

(** * Beyond the claims: the recompute on its own *)

(** X9: the recompute for a key in the range of the product key that no
    product carries raises [AttributeError] (it dereferences the [None] that
    [db.get] returned) and writes nothing. *)
Theorem update_product_rating_missing_product product_id db :
  int4 product_id ->
  (forall p, p ∈ products db -> Product.id p <> product_id) ->
  update_product_rating product_id db
  = (Raise (AttributeError "'NoneType' object has no attribute 'rating'"), db).
Proof.
  intros _ Hnone. rewrite update_product_rating_unfold.
  assert (first (select_where (fun p => Product.id p =? product_id) (products db))
          = None) as ->; [|done].
  apply first_select_None. intros p Hin. apply Z.eqb_neq. by apply Hnone.
Qed.

Lemma update_product_rating_missing_product_witness :
  update_product_rating 8 shop
  = (Raise (AttributeError "'NoneType' object has no attribute 'rating'"), shop).
Proof.
  apply update_product_rating_missing_product; [unfold int4; lia|].
  intros p Hin. vm_compute in Hin.
  apply list_elem_of_singleton in Hin as ->. discriminate.
Defined.

Lemma update_where_idempotent {A} (P : A -> bool) (f : A -> A) (tbl : list A) :
  (forall x, P (f x) = P x) -> (forall x, f (f x) = f x) ->
  update_where P f (update_where P f tbl) = update_where P f tbl.
Proof.
  intros HP Hf. unfold update_where. rewrite map_map. apply map_ext. intros x.
  destruct (P x) eqn:E; [by rewrite HP, E, Hf | by rewrite E].
Qed.

(** X10: the recompute is idempotent. Run again on the store it left, with
    no review changed in between, it succeeds and leaves that store as it
    is. *)
Theorem update_product_rating_idempotent product_id db db' :
  update_product_rating product_id db = (Ok tt, db') ->
  update_product_rating product_id db' = (Ok tt, db').
Proof.
  intros Hrun. pose proof (update_product_rating_exact _ _ _ Hrun) as Hdb'.
  rewrite update_product_rating_unfold in Hrun |- *.
  destruct (first (select_where _ (products db))) as [p|] eqn:Hp; [|done].
  clear Hrun. rewrite Hdb'. cbn [products set_products].
  rewrite (first_select_update_where _ _ _ _ p); [|done|done].
  f_equal. unfold set_products. cbn [categories products reviews categories_id_seq
    reviews_id_seq]. f_equal.
  replace (Product.id (if Product.id p =? product_id
                       then Product.set_rating (rating_spec product_id db) p else p))
    with product_id.
  2:{ apply first_select_Some in Hp as [_ Hid%Z.eqb_eq]. by destruct (_ =? _). }
  by apply update_where_idempotent.
Qed.

Lemma update_product_rating_idempotent_witness :
  update_product_rating 1 shop_reviewed = (Ok tt, shop_reviewed).
Proof.
  apply (update_product_rating_idempotent 1
           (with_new_review (ReviewCreate.mk 1 None 3) buyer 30
              (store_after (create_review (ReviewCreate.mk 1 (Some "fine") 5) buyer 20)
                 (store_after (create_review (ReviewCreate.mk 1 None 4) buyer 10)
                    shop)))).
  vm_compute. reflexivity.
Defined.

(** * Beyond the claims: listing reviews *)

Lemma products_get_reviews_unfold product_id db :
  Products.get_reviews product_id db =
  match first (select_where (fun p => (Product.id p =? product_id) && Product.is_active p)
                 (products db)) with
  | None => (Raise ProductMissing, db)
  | Some product =>
      (Ok (select_where
             (fun r => Review.is_active r && (Review.product_id r =? product_id))
             (reviews db)), db)
  end.
Proof.
  unfold Products.get_reviews. run_handler.
  destruct (first _) as [product|] eqn:Hproduct; [|done].
  apply first_select_Some in Hproduct as [_ [Hid%Z.eqb_eq _]%andb_prop].
  by rewrite Hid.
Qed.

Lemma select_where_elem_of {A} (P : A -> bool) (tbl : list A) (x : A) :
  x ∈ select_where P tbl <-> x ∈ tbl /\ P x = true.
Proof.
  unfold select_where. rewrite !list_elem_of_In. apply filter_In.
Qed.

Lemma listed_grades product_id db :
  List.map Review.grade
    (select_where (fun r => Review.is_active r && (Review.product_id r =? product_id))
       (reviews db))
  = active_grades product_id db.
Proof.
  rewrite <- selected_grades. unfold select_where. f_equal.
  apply List.filter_ext. intros r. apply andb_comm.
Qed.

(** X12: the reviews of a product are listed for an active product only.
    For a product that is missing or soft-deleted the listing fails with the
    404 of the handler; for an active product it returns exactly the active
    reviews of that product, whose grades are the ones the rating is the
    mean of. The listing never writes. *)
Theorem products_get_reviews_spec product_id db :
  (~ active_product product_id db ->
   Products.get_reviews product_id db = (Raise ProductMissing, db))
  /\
  (active_product product_id db ->
   exists listing,
     Products.get_reviews product_id db = (Ok listing, db) /\
     (forall r, r ∈ listing <->
                r ∈ reviews db /\ Review.is_active r = true /\
                Review.product_id r = product_id) /\
     List.map Review.grade listing = active_grades product_id db).
Proof.
  rewrite products_get_reviews_unfold. split.
  - intros Hnone. destruct (first _) as [product|] eqn:Hproduct; [|done].
    exfalso. apply Hnone, active_product_first'. by eexists.
  - intros [product ->]%active_product_first'. eexists. split; [done|]. split.
    + intros r. rewrite select_where_elem_of, andb_true_iff, Z.eqb_eq. tauto.
    + apply listed_grades.
Qed.

(** A selection after an update that takes rows out of it. *)
Lemma select_where_update_out {A} (P K : A -> bool) (f : A -> A) (tbl : list A) :
  (forall x, P (f x) = false) ->
  select_where P (update_where K f tbl)
  = List.filter (fun x => negb (K x)) (select_where P tbl).
Proof.
  intros Hout. unfold select_where, update_where.
  induction tbl as [|x tbl IH]; [done|]. cbn [List.map List.filter].
  destruct (K x) eqn:HK.
  - rewrite Hout. destruct (P x); cbn [List.filter]; by rewrite ?HK.
  - destruct (P x); cbn [List.filter]; rewrite ?HK; cbn [negb]; by rewrite IH.
Qed.

(** Writing ratings does not move a product in or out of a selection that
    does not read the rating. *)
Lemma first_select_set_rating (P K : Product.t -> bool) q (tbl : list Product.t) :
  (forall p, P (Product.set_rating q p) = P p) ->
  is_Some (first (select_where P tbl)) ->
  is_Some (first (select_where P (update_where K (Product.set_rating q) tbl))).
Proof.
  intros HP [p Hp]. rewrite (first_select_update_where P K _ tbl p); [by eexists|done..].
Qed.

(** X13: a created review shows up. On a well-formed store, after a
    successful review create the listing of the product's reviews, and the
    listing of all reviews, are the listings from before with the returned
    review added at the end. *)
Theorem create_review_listed review current_user now db r db' :
  wf_db db ->
  create_review review current_user now db = (Ok r, db') ->
  exists listing,
    Products.get_reviews (ReviewCreate.product_id review) db = (Ok listing, db) /\
    Products.get_reviews (ReviewCreate.product_id review) db'
    = (Ok (listing ++ [r])%list, db') /\
    Reviews.get_reviews db'
    = (Ok (select_where (fun r => Review.is_active r) (reviews db) ++ [r])%list, db').
Proof.
  intros Hwf Hok.
  pose proof (create_review_returns _ _ _ _ _ _ Hwf Hok) as ->.
  pose proof (create_review_reviews _ _ _ _ _ _ Hok) as Hreviews.
  pose proof Hok as (_ & _ & Hactive & _)%create_review_Ok.
  pose proof (create_review_active_product _ _ _ _ _ _ _ Hok Hactive) as Hactive'.
  rewrite !products_get_reviews_unfold.
  apply active_product_first' in Hactive as [product ->].
  apply active_product_first' in Hactive' as [product' ->].
  eexists. split; [done|]. split.
  - rewrite Hreviews. unfold select_where. rewrite List.filter_app. cbn.
    by rewrite Z.eqb_refl.
  - unfold Reviews.get_reviews. run_handler. rewrite Hreviews.
    unfold select_where. by rewrite List.filter_app.
Qed.

Lemma create_review_listed_witness :
  exists listing,
    Products.get_reviews 1 shop = (Ok listing, shop) /\
    Products.get_reviews 1
      (store_after (create_review (ReviewCreate.mk 1 None 4) buyer 10) shop)
    = (Ok (listing ++ [Review.mk 1 9 1 None 10 4 true])%list,
       store_after (create_review (ReviewCreate.mk 1 None 4) buyer 10) shop) /\
    Reviews.get_reviews
      (store_after (create_review (ReviewCreate.mk 1 None 4) buyer 10) shop)
    = (Ok (select_where (fun r => Review.is_active r) (reviews shop)
           ++ [Review.mk 1 9 1 None 10 4 true])%list,
       store_after (create_review (ReviewCreate.mk 1 None 4) buyer 10) shop).
Proof.
  apply (create_review_listed (ReviewCreate.mk 1 None 4) buyer 10 shop).
  - exact shop_wf.
  - reflexivity.
Defined.

(** X14: a soft-deleted review is gone from the listings, and only it.
    After a successful soft-delete under an id, the listing of the reviews
    of the review's product, and the listing of all reviews, are the
    listings from before without the reviews under that id. *)
Theorem delete_review_unlisted review_id current_user db v db' :
  delete_review review_id current_user db = (Ok v, db') ->
  exists review listing,
    Products.get_reviews (Review.product_id review) db = (Ok listing, db) /\
    review ∈ listing /\ Review.id review = review_id /\
    Products.get_reviews (Review.product_id review) db'
    = (Ok (List.filter (fun r => negb (Review.id r =? review_id)) listing), db') /\
    Reviews.get_reviews db'
    = (Ok (List.filter (fun r => negb (Review.id r =? review_id))
             (select_where (fun r => Review.is_active r) (reviews db))), db').
Proof.
  intros (review & Hin & Hid & Hact & Hactive & Hw & _)%delete_review_Ok.
  pose proof (rating_written_reviews _ _ Hw) as Hreviews.
  cbn [reviews set_reviews] in Hreviews.
  assert (Hactive' : active_product (Review.product_id review) db').
  { by apply (rating_written_active_product _ _ _ Hw). }
  exists review. rewrite !products_get_reviews_unfold.
  apply active_product_first' in Hactive as [product ->].
  apply active_product_first' in Hactive' as [product' ->].
  eexists. split; [done|]. split; [|split; [done|split]].
  - apply select_where_elem_of. split; [done|]. by rewrite Hact, Z.eqb_refl.
  - rewrite Hreviews. by rewrite select_where_update_out.
  - unfold Reviews.get_reviews. run_handler. rewrite Hreviews.
    by rewrite select_where_update_out.
Qed.

Lemma delete_review_unlisted_witness :
  exists review listing,
    Products.get_reviews (Review.product_id review) shop_reviewed
    = (Ok listing, shop_reviewed) /\
    review ∈ listing /\ Review.id review = 3 /\
    Products.get_reviews (Review.product_id review) shop_moderated
    = (Ok (List.filter (fun r => negb (Review.id r =? 3)) listing), shop_moderated) /\
    Reviews.get_reviews shop_moderated
    = (Ok (List.filter (fun r => negb (Review.id r =? 3))
             (select_where (fun r => Review.is_active r) (reviews shop_reviewed))),
       shop_moderated).
Proof.
  apply (delete_review_unlisted 3 admin shop_reviewed [("message", "Review deleted")]).
  reflexivity.
Defined.

(** * Beyond the claims: the category handlers *)

Lemma elem_of_update_where {A} (P : A -> bool) (f : A -> A) (tbl : list A) (x : A) :
  x ∈ tbl -> (if P x then f x else x) ∈ update_where P f tbl.
Proof.
  intros Hin. unfold update_where. apply list_elem_of_In, in_map_iff.
  exists x. split; [done | by apply list_elem_of_In].
Qed.

Lemma elem_of_update_where_hit {A} (P : A -> bool) (f : A -> A) (tbl : list A) (x : A) :
  x ∈ tbl -> P x = true -> f x ∈ update_where P f tbl.
Proof. intros Hin HP. pose proof (elem_of_update_where P f tbl x Hin) as H. by rewrite HP in H. Qed.

Lemma elem_of_update_where_miss {A} (P : A -> bool) (f : A -> A) (tbl : list A) (x : A) :
  x ∈ tbl -> P x = false -> x ∈ update_where P f tbl.
Proof. intros Hin HP. pose proof (elem_of_update_where P f tbl x Hin) as H. by rewrite HP in H. Qed.

Lemma get_all_categories_unfold db :
  get_all_categories db
  = (Ok (select_where (fun c => Category.is_active c) (categories db)), db).
Proof. reflexivity. Qed.

(** X15: what a successful category create leaves behind, in full. On a
    well-formed store, a create without parent, or with a parent_id that
    names a category of the store, succeeds; it returns the new row (key
    from the sequence, the request's name and parent, active), appends it,
    advances the category sequence and changes nothing else; the row then
    closes the listing of the active categories. *)
Theorem create_category_effect category db :
  wf_db db ->
  (forall parent_id,
     CategoryCreate.parent_id category = Some parent_id ->
     exists parent, parent ∈ categories db /\ Category.id parent = parent_id) ->
  let row :=
    Category.mk (categories_id_seq db) (CategoryCreate.parent_id category)
      (CategoryCreate.name category) true in
  let db' :=
    mkDB (categories db ++ [row]) (products db) (reviews db)
         (categories_id_seq db + 1) (reviews_id_seq db) in
  create_category category db = (Ok row, db') /\
  get_all_categories db'
  = (Ok (select_where (fun c => Category.is_active c) (categories db) ++ [row])%list, db').
Proof.
  intros Hwf Hparent row db'. split.
  - rewrite create_category_unfold. cbn zeta. fold row. fold db'.
    assert (Hrefresh : first (select_where (fun c => Category.id c =? categories_id_seq db)
                                (categories db')) = Some row).
    { apply (first_select_by_key Category.id).
      - by destruct (wf_with_new_category category db Hwf).
      - cbn [categories db']. apply elem_of_app. right. apply list_elem_of_here.
      - apply Z.eqb_refl.
      - by intros x ?%Z.eqb_eq. }
    rewrite Hrefresh.
    destruct (CategoryCreate.parent_id category) as [parent_id|] eqn:E; [|done].
    destruct (Hparent parent_id eq_refl) as (parent & Hin & Hid).
    destruct (first_select_is_Some (fun c => Category.id c =? parent_id)
                (categories db) parent Hin) as [found ->]; [by apply Z.eqb_eq|done].
  - rewrite get_all_categories_unfold. cbn [categories db'].
    unfold select_where. by rewrite List.filter_app.
Qed.

Lemma create_category_effect_witness :
  create_category (CategoryCreate.mk "games" Unset) shop
  = (Ok (Category.mk 3 None "games" true),
     mkDB (categories shop ++ [Category.mk 3 None "games" true]) (products shop)
          (reviews shop) 4 1) /\
  get_all_categories
    (mkDB (categories shop ++ [Category.mk 3 None "games" true]) (products shop)
          (reviews shop) 4 1)
  = (Ok (select_where (fun c => Category.is_active c) (categories shop)
         ++ [Category.mk 3 None "games" true])%list,
     mkDB (categories shop ++ [Category.mk 3 None "games" true]) (products shop)
          (reviews shop) 4 1).
Proof.
  apply (create_category_effect (CategoryCreate.mk "games" Unset) shop).
  - exact shop_wf.
  - intros parent_id [=].
Defined.

(** X16: for ids that the category key can hold, a category update fails in
    three ways only, a target that is not in the store, a parent that is not
    in the store or the target as its own parent, and a failed update leaves
    the store as it was. *)
Theorem update_category_failure category_id category db e db' :
  int4 category_id ->
  (forall parent_id,
     CategoryCreate.parent_id category = Some parent_id -> int4 parent_id) ->
  update_category category_id category db = (Raise e, db') ->
  db' = db /\ (e = CategoryNotFound \/ e = ParentNotFound \/ e = SelfParentError).
Proof.
  intros _ _. rewrite update_category_unfold.
  destruct (first (select_where _ (categories db))) as [target|] eqn:Htarget;
    [|intros [= <- <-]; auto].
  cbn zeta.
  assert (Hrefresh : is_Some (first (select_where
            (fun c => Category.id c =? Category.id target)
            (update_where (fun c => Category.id c =? category_id) (update_data category)
               (categories db))))).
  { apply first_select_Some in Htarget as [Hin Hid%Z.eqb_eq].
    apply (first_select_is_Some _ _ _
             (elem_of_update_where (fun c => Category.id c =? category_id)
                (update_data category) _ target Hin)).
    destruct (_ =? category_id); apply Z.eqb_refl. }
  destruct Hrefresh as [c Hc]. cbn [categories set_categories]. rewrite Hc.
  destruct (CategoryCreate.parent_id category) as [parent_id|]; [|done].
  destruct (first (select_where (fun c => Category.id c =? parent_id) (categories db)))
    as [parent|]; [|intros [= <- <-]; auto].
  destruct (Category.id parent =? category_id); [intros [= <- <-]; auto | done].
Qed.

Lemma update_category_failure_witness :
  shop = shop /\
  (HTTPException 400 "Category not found" = CategoryNotFound \/
   HTTPException 400 "Category not found" = ParentNotFound \/
   HTTPException 400 "Category not found" = SelfParentError).
Proof.
  apply (update_category_failure 8 (CategoryCreate.mk "games" Unset) shop).
  - unfold int4. lia.
  - intros parent_id [=].
  - reflexivity.
Defined.

(** The update of a category of the store, step by step. *)
Lemma update_category_target target category db :
  NoDup (Category.id <$> categories db) ->
  target ∈ categories db ->
  (forall parent_id,
     CategoryCreate.parent_id category = Some parent_id ->
     parent_id <> Category.id target /\
     exists parent, parent ∈ categories db /\ Category.id parent = parent_id) ->
  update_category (Category.id target) category db
  = (Ok (Category.mk (Category.id target)
           (match CategoryCreate.parent_id_field category with
            | Unset => Category.parent_id target
            | Given v => v
            end)
           (CategoryCreate.name category) (Category.is_active target)),
     set_categories
       (update_where (fun c => Category.id c =? Category.id target)
          (update_data category) (categories db)) db).
Proof.
  intros Hnd Hin Hparent. rewrite update_category_unfold.
  rewrite (first_select_by_key Category.id _ _ target);
    [|done|done|apply Z.eqb_refl|by intros x ?%Z.eqb_eq].
  cbn zeta. cbn [categories set_categories].
  rewrite (first_select_update_where _ _ _ _ target);
    [|done|by apply (first_select_by_key Category.id);
             [..|apply Z.eqb_refl|intros x ?%Z.eqb_eq]].
  rewrite Z.eqb_refl.
  destruct (CategoryCreate.parent_id category) as [parent_id|] eqn:E; [|done].
  destruct (Hparent parent_id eq_refl) as (Hne & parent & Hpin & Hpid).
  destruct (first_select_is_Some (fun c => Category.id c =? parent_id)
              (categories db) parent Hpin) as [found Hfound]; [by apply Z.eqb_eq|].
  rewrite Hfound. apply first_select_Some in Hfound as [_ Hid%Z.eqb_eq].
  by destruct (Z.eqb_spec (Category.id found) (Category.id target)); [congruence|].
Qed.

(** X17: what a successful category update leaves behind, in full. With
    unique category keys, the update of a category of the store, soft-deleted
    or not, without parent_id or with one that names another category of
    the store, succeeds. The target gets the request's name, and the
    request's parent when the request carried the field (an explicit null
    clears it; a request without the field keeps the parent); its key and
    its is_active are kept, so an update never brings a soft-deleted
    category back; rows under other keys are not touched. *)
Theorem update_category_effect target category db :
  NoDup (Category.id <$> categories db) ->
  target ∈ categories db ->
  (forall parent_id,
     CategoryCreate.parent_id category = Some parent_id ->
     parent_id <> Category.id target /\
     exists parent, parent ∈ categories db /\ Category.id parent = parent_id) ->
  update_category (Category.id target) category db
  = (Ok (Category.mk (Category.id target)
           (match CategoryCreate.parent_id_field category with
            | Unset => Category.parent_id target
            | Given v => v
            end)
           (CategoryCreate.name category) (Category.is_active target)),
     set_categories
       (update_where (fun c => Category.id c =? Category.id target)
          (update_data category) (categories db)) db).
Proof. apply update_category_target. Qed.

Lemma update_category_effect_witness :
  update_category 2 (CategoryCreate.mk "records" Unset) market
  = (Ok (Category.mk 2 (Some 1) "records" false),
     set_categories
       (update_where (fun c => Category.id c =? 2)
          (update_data (CategoryCreate.mk "records" Unset)) (categories market))
       market).
Proof.
  apply (update_category_effect (Category.mk 2 (Some 1) "music" false)
           (CategoryCreate.mk "records" Unset) market).
  - apply (bool_decide_unpack _). vm_compute. exact I.
  - repeat constructor.
  - intros parent_id [=].
Defined.

(** X18: only the direct self-parent is refused. With unique category keys,
    for any two categories of the store, making the second the parent of
    the first and then the first the parent of the second both succeed, and
    the store then holds a cycle of length two. *)
Theorem update_category_two_step_cycle a b name_a name_b db :
  NoDup (Category.id <$> categories db) ->
  a ∈ categories db -> b ∈ categories db -> Category.id a <> Category.id b ->
  exists row_a db1 row_b db2,
    update_category (Category.id a)
      (CategoryCreate.mk name_a (Given (Some (Category.id b)))) db = (Ok row_a, db1) /\
    update_category (Category.id b)
      (CategoryCreate.mk name_b (Given (Some (Category.id a)))) db1 = (Ok row_b, db2) /\
    Category.mk (Category.id a) (Some (Category.id b)) name_a (Category.is_active a)
      ∈ categories db2 /\
    Category.mk (Category.id b) (Some (Category.id a)) name_b (Category.is_active b)
      ∈ categories db2.
Proof.
  intros Hnd Ha Hb Hne.
  set (req_a := CategoryCreate.mk name_a (Given (Some (Category.id b)))).
  set (req_b := CategoryCreate.mk name_b (Given (Some (Category.id a)))).
  set (db1 := set_categories
                (update_where (fun c => Category.id c =? Category.id a)
                   (update_data req_a) (categories db)) db).
  assert (Hnd1 : NoDup (Category.id <$> categories db1)).
  { cbn [db1 categories set_categories]. by rewrite (update_where_keys Category.id). }
  assert (Ha1 : update_data req_a a ∈ categories db1).
  { apply elem_of_update_where_hit; [done | apply Z.eqb_refl]. }
  assert (Hb1 : b ∈ categories db1).
  { apply elem_of_update_where_miss; [done | apply Z.eqb_neq; congruence]. }
  eexists _, db1, _, _. split; [|split; [|split]].
  - apply (update_category_target a req_a db Hnd Ha).
    intros parent_id [= <-]. split; [congruence|]. by exists b.
  - apply (update_category_target b req_b db1 Hnd1 Hb1).
    intros parent_id [= <-]. split; [done|]. by exists (update_data req_a a).
  - cbn [categories set_categories].
    apply (elem_of_update_where_miss _ _ _ (update_data req_a a)); [done|].
    by apply Z.eqb_neq.
  - cbn [categories set_categories].
    apply (elem_of_update_where_hit _ (update_data req_b) _ b); [done|].
    apply Z.eqb_refl.
Qed.

Lemma update_category_two_step_cycle_witness :
  exists row_a db1 row_b db2,
    update_category 1 (CategoryCreate.mk "books" (Given (Some 2))) shop
    = (Ok row_a, db1) /\
    update_category 2 (CategoryCreate.mk "music" (Given (Some 1))) db1
    = (Ok row_b, db2) /\
    Category.mk 1 (Some 2) "books" true ∈ categories db2 /\
    Category.mk 2 (Some 1) "music" false ∈ categories db2.
Proof.
  apply (update_category_two_step_cycle (Category.mk 1 None "books" true)
           (Category.mk 2 None "music" false) "books" "music" shop).
  - apply (bool_decide_unpack _). vm_compute. exact I.
  - repeat constructor.
  - repeat constructor.
  - discriminate.
Defined.

Lemma listed_ids_update_where (P : Category.t -> bool) (f : Category.t -> Category.t)
    (tbl : list Category.t) :
  (forall c, Category.id (f c) = Category.id c) ->
  (forall c, Category.is_active (f c) = Category.is_active c) ->
  List.map Category.id
    (select_where (fun c => Category.is_active c) (update_where P f tbl))
  = List.map Category.id (select_where (fun c => Category.is_active c) tbl).
Proof.
  intros Hid Hact. unfold select_where, update_where.
  induction tbl as [|c tbl IH]; [done|]. cbn [List.map List.filter].
  destruct (P c).
  - rewrite Hact. destruct (Category.is_active c); cbn [List.map]; by rewrite ?Hid, IH.
  - destruct (Category.is_active c); cbn [List.map]; by rewrite IH.
Qed.

(** X19: a category update neither lists nor unlists. Whatever a category
    update does, the keys of the categories that the listing of active
    categories returns are the same after it as before, each as often; the
    order in which they are returned may differ. *)
Theorem update_category_keeps_listing category_id category db :
  exists listing listing',
    get_all_categories db = (Ok listing, db) /\
    get_all_categories (store_after (update_category category_id category) db)
    = (Ok listing', store_after (update_category category_id category) db) /\
    List.map Category.id listing' ≡ₚ List.map Category.id listing.
Proof.
  rewrite !get_all_categories_unfold. eexists _, _. split; [done|]. split; [done|].
  apply (eq_ind_r (fun l => l ≡ₚ _) (reflexivity _)).
  unfold store_after. rewrite update_category_unfold.
  destruct (first (select_where _ (categories db))) as [target|]; [|done].
  cbn zeta.
  assert (Hkept : List.map Category.id
            (select_where (fun c => Category.is_active c)
               (update_where (fun c => Category.id c =? category_id)
                  (update_data category) (categories db)))
          = List.map Category.id
              (select_where (fun c => Category.is_active c) (categories db))).
  { by apply listed_ids_update_where. }
  cbn [categories set_categories].
  destruct (first (select_where _ (update_where _ _ _))); cbn [snd];
    destruct (CategoryCreate.parent_id category) as [parent_id|]; try done;
    destruct (first (select_where (fun c => Category.id c =? parent_id) (categories db)))
      as [parent|]; try done;
    by destruct (Category.id parent =? category_id).
Qed.

(** X20: no category is ever soft-deleted. For every id that the category
    key can hold and every store, the category soft-delete raises
    [AttributeError] (it calls [first] on the value that [db.scalar]
    returned), writes nothing, and the listing of the active categories
    afterwards is the one from before. *)
Theorem delete_category_never_deletes category_id db :
  int4 category_id ->
  (exists msg, delete_category category_id db = (Raise (AttributeError msg), db)) /\
  get_all_categories (store_after (delete_category category_id) db)
  = (Ok (select_where (fun c => Category.is_active c) (categories db)), db).
Proof.
  intros _. split; [apply delete_category_raises|].
  by rewrite delete_category_keeps_store.
Qed.

Lemma delete_category_never_deletes_witness :
  (exists msg, delete_category 2 shop = (Raise (AttributeError msg), shop)) /\
  get_all_categories (store_after (delete_category 2) shop)
  = (Ok (select_where (fun c => Category.is_active c) (categories shop)), shop).
Proof. apply (delete_category_never_deletes 2 shop). unfold int4. lia. Defined.

(** * Beyond the claims: the product handlers *)

Lemma active_category_first (category_id : Z) (db : DB) :
  active_category category_id db <->
  is_Some (first (select_where
                    (fun c => (Category.id c =? category_id) && Category.is_active c)
                    (categories db))).
Proof.
  split.
  - intros (c & Hin & Hid & Hact).
    apply (first_select_is_Some _ _ c Hin). rewrite Hact, andb_true_r. by apply Z.eqb_eq.
  - intros [c Hc]. apply first_select_Some in Hc as [Hin [Hid%Z.eqb_eq Hact]%andb_prop].
    by exists c.
Qed.

Lemma get_product_unfold product_id db :
  get_product product_id db =
  match first (select_where (fun p => (Product.id p =? product_id) && Product.is_active p)
                 (products db)) with
  | None => (Raise ProductMissing, db)
  | Some product =>
      match first (select_where
                     (fun c => (Category.id c =? Product.category_id product)
                               && Category.is_active c)
                     (categories db)) with
      | None => (Raise CategoryInactive, db)
      | Some _ => (Ok product, db)
      end
  end.
Proof.
  unfold get_product. run_handler.
  destruct (first (select_where _ (products db))) as [product|]; [|done].
  by destruct (first _).
Qed.

(** The active row under a product key, when keys are unique. *)
Lemma first_active_product p db :
  NoDup (Product.id <$> products db) ->
  p ∈ products db -> Product.is_active p = true ->
  first (select_where (fun x => (Product.id x =? Product.id p) && Product.is_active x)
           (products db)) = Some p.
Proof.
  intros Hnd Hin Hact. apply (first_select_by_key Product.id); try done.
  - by rewrite Z.eqb_refl, Hact.
  - by intros x [?%Z.eqb_eq _]%andb_prop.
Qed.

(** X21: fetching a product by id. A key under which no active product is
    stored gives the 404 of the handler; with unique keys, an active product
    is returned when its category is in the store and active, and refused
    with the 400 of the handler when its category is missing or
    soft-deleted, although the product itself is active. Nothing is
    written. *)
Theorem get_product_spec db :
  (forall product_id,
     ~ active_product product_id db ->
     get_product product_id db = (Raise ProductMissing, db))
  /\
  (forall p,
     NoDup (Product.id <$> products db) ->
     p ∈ products db -> Product.is_active p = true ->
     active_category (Product.category_id p) db ->
     get_product (Product.id p) db = (Ok p, db))
  /\
  (forall p,
     NoDup (Product.id <$> products db) ->
     p ∈ products db -> Product.is_active p = true ->
     ~ active_category (Product.category_id p) db ->
     get_product (Product.id p) db = (Raise CategoryInactive, db)).
Proof.
  repeat apply conj.
  - intros product_id Hnone. rewrite get_product_unfold.
    destruct (first _) as [product|] eqn:Hproduct; [|done].
    exfalso. apply Hnone, active_product_first'. by eexists.
  - intros p Hnd Hin Hact [c Hc]%active_category_first.
    by rewrite get_product_unfold, first_active_product, Hc.
  - intros p Hnd Hin Hact Hnone.
    rewrite get_product_unfold, first_active_product by done.
    destruct (first _) as [c|] eqn:Hc; [|done].
    exfalso. apply Hnone, active_category_first. by eexists.
Qed.

Lemma get_product_spec_witness :
  get_product 4 market = (Raise ProductMissing, market) /\
  get_product 1 market = (Ok (Product.mk 1 1 7 (10 # 1) 3 0 true), market) /\
  get_product 2 market = (Raise CategoryInactive, market).
Proof.
  assert (Hnd : NoDup (Product.id <$> products market)).
  { apply (bool_decide_unpack _). vm_compute. exact I. }
  repeat apply conj.
  - apply (proj1 (get_product_spec market)).
    intros (p & Hin & Hid & Hact). vm_compute in Hin.
    repeat (apply elem_of_cons in Hin as [->|Hin]; [discriminate|]).
    by apply elem_of_nil in Hin.
  - apply (proj1 (proj2 (get_product_spec market))
             (Product.mk 1 1 7 (10 # 1) 3 0 true) Hnd).
    + repeat constructor.
    + reflexivity.
    + exists (Category.mk 1 None "books" true). split; [repeat constructor | done].
  - apply (proj2 (proj2 (get_product_spec market))
             (Product.mk 2 2 8 (25 # 1) 5 0 true) Hnd).
    + repeat constructor.
    + reflexivity.
    + intros (c & Hin & Hid & Hact). vm_compute in Hin.
      repeat (apply elem_of_cons in Hin as [->|Hin]; [discriminate|]).
      by apply elem_of_nil in Hin.
Defined.

Lemma update_product_unfold product_id product current_user db :
  update_product product_id product current_user db =
  match first (select_where (fun p => (Product.id p =? product_id) && Product.is_active p)
                 (products db)) with
  | None => (Raise ProductMissing, db)
  | Some db_product =>
      if negb (Product.seller_id db_product =? User.id current_user) then
        (Raise NotOwner, db)
      else
        match first (select_where
                       (fun c => (Category.id c =? ProductCreate.category_id product)
                                 && Category.is_active c)
                       (categories db)) with
        | None => (Raise CategoryInactive, db)
        | Some _ =>
            let db1 :=
              set_products
                (update_where (fun p => Product.id p =? product_id)
                   (product_values product) (products db)) db in
            match first (select_where (fun p => Product.id p =? Product.id db_product)
                           (products db1)) with
            | Some p => (Ok p, db1)
            | None => (Raise (InvalidRequestError "Could not refresh instance"), db1)
            end
        end
  end.
Proof.
  unfold update_product, refresh_product. run_handler.
  destruct (first (select_where _ (products db))) as [db_product|]; [|done].
  destruct (negb _); [done|].
  destruct (first (select_where _ (categories db))); [|done].
  by destruct (first _).
Qed.

(** X22: ownership. With unique product keys, the update of an active
    product by anyone but the seller who owns it is refused with the 403 of
    the handler, before the request's category is looked at, and nothing is
    written. *)
Theorem update_product_not_owner p product current_user db :
  NoDup (Product.id <$> products db) ->
  p ∈ products db -> Product.is_active p = true ->
  Product.seller_id p <> User.id current_user ->
  update_product (Product.id p) product current_user db = (Raise NotOwner, db).
Proof.
  intros Hnd Hin Hact Hother.
  rewrite update_product_unfold, first_active_product by done.
  by destruct (Z.eqb_spec (Product.seller_id p) (User.id current_user)).
Qed.

Lemma update_product_not_owner_witness :
  update_product 1 (ProductCreate.mk 9 (1 # 1) 100) rival market
  = (Raise NotOwner, market).
Proof.
  apply (update_product_not_owner (Product.mk 1 1 7 (10 # 1) 3 0 true)
           (ProductCreate.mk 9 (1 # 1) 100) rival market).
  - apply (bool_decide_unpack _). vm_compute. exact I.
  - repeat constructor.
  - reflexivity.
  - discriminate.
Defined.

(** X23: a product update fails in three ways only, no active product under
    the key, a caller who does not own it, or a request whose category is
    missing or soft-deleted, and a failed update leaves the store as it
    was. *)
Theorem update_product_failure product_id product current_user db e db' :
  update_product product_id product current_user db = (Raise e, db') ->
  db' = db /\ (e = ProductMissing \/ e = NotOwner \/ e = CategoryInactive).
Proof.
  rewrite update_product_unfold.
  destruct (first (select_where _ (products db))) as [db_product|] eqn:Hproduct;
    [|intros [= <- <-]; auto].
  destruct (negb _); [intros [= <- <-]; auto|].
  destruct (first (select_where _ (categories db))); [|intros [= <- <-]; auto].
  cbn zeta. cbn [products set_products].
  apply first_select_Some in Hproduct as [Hin [Hid%Z.eqb_eq _]%andb_prop].
  destruct (first_select_is_Some (fun x => Product.id x =? Product.id db_product)
              (update_where (fun x => Product.id x =? product_id)
                 (product_values product) (products db))
              (product_values product db_product)) as [found ->]; [| |done].
  - apply elem_of_update_where_hit; [done | by apply Z.eqb_eq].
  - apply Z.eqb_refl.
Qed.

Lemma update_product_failure_witness :
  market = market /\
  (HTTPException 400 "Category not found or inactive" = ProductMissing \/
   HTTPException 400 "Category not found or inactive" = NotOwner \/
   HTTPException 400 "Category not found or inactive" = CategoryInactive).
Proof.
  apply (update_product_failure 1 (ProductCreate.mk 2 (1 # 1) 100) seller market).
  reflexivity.
Defined.

(** X24: what a successful product update leaves behind, in full. With
    unique product keys, the update of an active product by its owner with
    a request whose category is in the store and active succeeds; the
    product gets the request's category, price and stock and keeps its key,
    its seller, its rating and its status; rows under other keys are not
    touched, and neither are categories and reviews. *)
Theorem update_product_effect p product current_user db :
  NoDup (Product.id <$> products db) ->
  p ∈ products db -> Product.is_active p = true ->
  Product.seller_id p = User.id current_user ->
  active_category (ProductCreate.category_id product) db ->
  update_product (Product.id p) product current_user db
  = (Ok (Product.mk (Product.id p) (ProductCreate.category_id product)
           (Product.seller_id p) (ProductCreate.price product)
           (ProductCreate.stock product) (Product.rating p) true),
     set_products
       (update_where (fun x => Product.id x =? Product.id p) (product_values product)
          (products db)) db).
Proof.
  intros Hnd Hin Hact Hown [c Hc]%active_category_first.
  rewrite update_product_unfold, first_active_product by done.
  rewrite Hown, Z.eqb_refl. cbn [negb]. rewrite Hc. cbn zeta.
  cbn [products set_products].
  rewrite (first_select_update_where _ _ _ _ p); [|done|].
  - rewrite Z.eqb_refl. unfold product_values. by rewrite Hact, Hown.
  - apply (first_select_by_key Product.id); try done.
    + apply Z.eqb_refl.
    + by intros x ?%Z.eqb_eq.
Qed.

Lemma update_product_effect_witness :
  update_product 3 (ProductCreate.mk 1 (4 # 1) 12) seller market
  = (Ok (Product.mk 3 1 7 (4 # 1) 12 0 true),
     set_products
       (update_where (fun x => Product.id x =? 3)
          (product_values (ProductCreate.mk 1 (4 # 1) 12)) (products market))
       market).
Proof.
  apply (update_product_effect (Product.mk 3 1 7 (7 # 2) 0 0 true)
           (ProductCreate.mk 1 (4 # 1) 12) seller market).
  - apply (bool_decide_unpack _). vm_compute. exact I.
  - repeat constructor.
  - reflexivity.
  - reflexivity.
  - exists (Category.mk 1 None "books" true). split; [repeat constructor | done].
Defined.

(** ** The join behind the product listing *)

Section JoinFacts.
Context (cs : list Category.t).

Let on (p : Product.t) (c : Category.t) : bool := Product.category_id p =? Category.id c.
Let listed (pc : Product.t * Category.t) : bool :=
  let '(p, c) := pc in
  Product.is_active p && Category.is_active c && (Product.stock p >? 0).

Lemma join_elem_of (ps : list Product.t) (p : Product.t) :
  p ∈ List.map fst (select_where listed (join on ps cs)) <->
  p ∈ ps /\ Product.is_active p = true /\ Product.stock p > 0 /\
  exists c, c ∈ cs /\ Category.id c = Product.category_id p /\
            Category.is_active c = true.
Proof.
  unfold select_where, join. rewrite list_elem_of_In, in_map_iff. split.
  - intros ([p' c] & <- & [Hin Hlisted]%filter_In).
    apply in_flat_map in Hin as (x & Hx & Hpair).
    apply in_map_iff in Hpair as (c' & [= -> ->] & [Hc Hon]%filter_In).
    cbn in Hlisted. apply andb_prop in Hlisted as [[Hp Hc']%andb_prop Hstock].
    cbn [fst]. split; [by apply list_elem_of_In|]. split; [done|]. split; [lia|].
    exists c. split; [by apply list_elem_of_In|]. split; [|done].
    symmetry. by apply Z.eqb_eq.
  - intros (Hin & Hact & Hstock & c & Hc & Hid & Hcact).
    exists (p, c). split; [done|]. apply filter_In. split.
    + apply in_flat_map. exists p. split; [by apply list_elem_of_In|].
      apply in_map_iff. exists c. split; [done|]. apply filter_In.
      split; [by apply list_elem_of_In|]. unfold on. apply Z.eqb_eq. congruence.
    + cbn. rewrite Hact, Hcact. cbn. lia.
Qed.

Lemma no_row_under_key (k : Z) (l : list Category.t) :
  k ∉ Category.id <$> l ->
  List.filter (fun c => k =? Category.id c) l = [] /\
  existsb (fun c => (k =? Category.id c) && Category.is_active c) l = false.
Proof.
  induction l as [|c l IH]; [done|]. rewrite fmap_cons, not_elem_of_cons.
  intros [Hne Hl]. cbn. destruct (Z.eqb_spec k (Category.id c)); [done|]. cbn. by apply IH.
Qed.

(** With unique category keys a product is joined with one category at most. *)
Lemma join_row (p : Product.t) :
  NoDup (Category.id <$> cs) ->
  List.map fst (List.filter listed (List.map (fun c => (p, c)) (List.filter (on p) cs)))
  = if Product.is_active p && (Product.stock p >? 0)
       && existsb (fun c => (Product.category_id p =? Category.id c)
                            && Category.is_active c) cs
    then [p] else [].
Proof.
  unfold on. induction cs as [|c l IH]; intros Hnd.
  - cbn. by rewrite !andb_false_r.
  - rewrite fmap_cons, NoDup_cons in Hnd. destruct Hnd as [Hfresh Hnd]. cbn.
    destruct (Z.eqb_spec (Product.category_id p) (Category.id c)) as [Hkey|Hkey].
    + rewrite <- Hkey in Hfresh.
      destruct (no_row_under_key _ _ Hfresh) as [-> ->]. cbn.
      rewrite orb_false_r.
      by destruct (Product.is_active p), (Category.is_active c), (Product.stock p >? 0).
    + cbn. by apply IH.
Qed.
End JoinFacts.

Lemma get_all_products_unfold db :
  get_all_products db =
  (Ok (List.map fst
         (select_where
            (fun '(p, c) => Product.is_active p && Category.is_active c
                            && (Product.stock p >? 0))
            (join (fun p c => Product.category_id p =? Category.id c)
               (products db) (categories db)))), db).
Proof. reflexivity. Qed.

(** X25: the product listing shows what is on sale, once. A product is in
    the listing exactly when it is in the store, active and in stock, and
    its category is in the store and active; with unique category keys the
    listing is the products table filtered by that condition, so no product
    is listed twice and the storage order is kept. Nothing is written. *)
Theorem get_all_products_spec db :
  exists listing,
    get_all_products db = (Ok listing, db) /\
    (forall p, p ∈ listing <->
               p ∈ products db /\ Product.is_active p = true /\ Product.stock p > 0 /\
               active_category (Product.category_id p) db) /\
    (NoDup (Category.id <$> categories db) ->
     listing =
     List.filter
       (fun p => Product.is_active p && (Product.stock p >? 0)
                 && existsb (fun c => (Product.category_id p =? Category.id c)
                                      && Category.is_active c) (categories db))
       (products db)).
Proof.
  rewrite get_all_products_unfold. eexists. split; [done|]. split.
  - intros p. rewrite join_elem_of. unfold active_category.
    split; intros (? & ? & ? & c & ? & ? & ?); repeat split; try done; by exists c.
  - intros Hnd. unfold select_where, join.
    induction (products db) as [|p ps IH]; [done|].
    cbn [flat_map List.filter]. rewrite List.filter_app, map_app, IH.
    rewrite (join_row (categories db) p Hnd).
    by destruct (_ && _ && _).
Qed.

(** Fetching an active product whose category is active, with unique keys. *)
Lemma get_product_on_sale p db :
  NoDup (Product.id <$> products db) ->
  p ∈ products db -> Product.is_active p = true ->
  active_category (Product.category_id p) db ->
  get_product (Product.id p) db = (Ok p, db).
Proof.
  intros Hnd Hin Hact [c Hc]%active_category_first.
  by rewrite get_product_unfold, first_active_product, Hc.
Qed.

(** X26: what is listed can be fetched. With unique product keys, every
    product that the product listing returns is returned, as the same row,
    by the fetch of its id. *)
Theorem listed_product_can_be_fetched p listing db :
  NoDup (Product.id <$> products db) ->
  get_all_products db = (Ok listing, db) ->
  p ∈ listing ->
  get_product (Product.id p) db = (Ok p, db).
Proof.
  intros Hnd. rewrite get_all_products_unfold. intros [= <-].
  intros (Hin & Hact & _ & c & Hc & Hid & Hcact)%join_elem_of.
  apply get_product_on_sale; try done. by exists c.
Qed.

Lemma listed_product_can_be_fetched_witness :
  get_product 1 market = (Ok (Product.mk 1 1 7 (10 # 1) 3 0 true), market).
Proof.
  apply (listed_product_can_be_fetched (Product.mk 1 1 7 (10 # 1) 3 0 true)
           [Product.mk 1 1 7 (10 # 1) 3 0 true] market).
  - apply (bool_decide_unpack _). vm_compute. exact I.
  - reflexivity.
  - repeat constructor.
Defined.

Lemma get_products_by_category_unfold category_id db :
  get_products_by_category category_id db =
  match first (select_where
                 (fun c => (Category.id c =? category_id) && Category.is_active c)
                 (categories db)) with
  | None => (Raise CategoryInactive, db)
  | Some _ =>
      (Ok (select_where
             (fun p => (Product.category_id p =? category_id) && Product.is_active p)
             (products db)), db)
  end.
Proof. unfold get_products_by_category. run_handler. by destruct (first _). Qed.

(** X27: the products of a category. For an id that the category key can
    hold: when the category is missing or soft-deleted the listing fails
    with the 400 of the handler; when it is active the listing returns
    exactly the active products of that category, those out of stock
    included. Nothing is written. *)
Theorem get_products_by_category_spec category_id db :
  int4 category_id ->
  (~ active_category category_id db ->
   get_products_by_category category_id db = (Raise CategoryInactive, db))
  /\
  (active_category category_id db ->
   exists listing,
     get_products_by_category category_id db = (Ok listing, db) /\
     forall p, p ∈ listing <->
               p ∈ products db /\ Product.category_id p = category_id /\
               Product.is_active p = true).
Proof.
  intros _. rewrite get_products_by_category_unfold. split.
  - intros Hnone. destruct (first _) as [c|] eqn:Hc; [|done].
    exfalso. apply Hnone, active_category_first. by eexists.
  - intros [c ->]%active_category_first. eexists. split; [done|].
    intros p. rewrite select_where_elem_of, andb_true_iff, Z.eqb_eq. tauto.
Qed.

Lemma create_product_unfold new_id rating_default is_active_default product current_user db :
  create_product new_id rating_default is_active_default product current_user db =
  match first (select_where
                 (fun c => (Category.id c =? ProductCreate.category_id product)
                           && Category.is_active c)
                 (categories db)) with
  | None => (Raise CategoryInactive, db)
  | Some _ =>
      let row :=
        Product.mk new_id (ProductCreate.category_id product) (User.id current_user)
          (ProductCreate.price product) (ProductCreate.stock product)
          rating_default is_active_default in
      let db1 := set_products (products db ++ [row]) db in
      match first (select_where (fun p => Product.id p =? new_id) (products db1)) with
      | Some p => (Ok p, db1)
      | None => (Raise (InvalidRequestError "Could not refresh instance"), db1)
      end
  end.
Proof.
  unfold create_product, add_product, refresh_product. run_handler.
  destruct (first (select_where _ (categories db))); [|done].
  cbn zeta. by destruct (first _).
Qed.

(** X28: creating a product. A request whose category is missing or
    soft-deleted fails with the 400 of the handler and writes nothing. A
    request whose category is active, given a key that no product carries,
    succeeds: it returns the new row, owned by the caller, with the
    request's category, price and stock, appends it and changes nothing
    else; when new products are active by default, the row then closes the
    listing of its category. *)
Theorem create_product_spec new_id rating_default is_active_default product
    current_user db :
  let row :=
    Product.mk new_id (ProductCreate.category_id product) (User.id current_user)
      (ProductCreate.price product) (ProductCreate.stock product)
      rating_default is_active_default in
  let db' := set_products (products db ++ [row]) db in
  (~ active_category (ProductCreate.category_id product) db ->
   create_product new_id rating_default is_active_default product current_user db
   = (Raise CategoryInactive, db))
  /\
  (active_category (ProductCreate.category_id product) db ->
   (forall p, p ∈ products db -> Product.id p <> new_id) ->
   create_product new_id rating_default is_active_default product current_user db
   = (Ok row, db') /\
   (is_active_default = true ->
    get_products_by_category (ProductCreate.category_id product) db'
    = (Ok (select_where
             (fun p => (Product.category_id p =? ProductCreate.category_id product)
                       && Product.is_active p)
             (products db) ++ [row])%list, db'))).
Proof.
  intros row db'. rewrite create_product_unfold. split.
  - intros Hnone. destruct (first _) as [c|] eqn:Hc; [|done].
    exfalso. apply Hnone, active_category_first. by eexists.
  - intros Hactive Hfresh. pose proof Hactive as [c Hc]%active_category_first.
    rewrite Hc. cbn zeta. fold row. fold db'. split.
    + assert (first (select_where (fun p => Product.id p =? new_id) (products db'))
              = Some row) as ->; [|done].
      cbn [products db' set_products]. unfold select_where, first.
      rewrite List.filter_app.
      assert (List.filter (fun p => Product.id p =? new_id) (products db) = []) as ->.
      { assert (Hnone : first (select_where (fun p => Product.id p =? new_id)
                                 (products db)) = None).
        { apply first_select_None. intros p Hp. apply Z.eqb_neq. by apply Hfresh. }
        unfold first, select_where in Hnone. by destruct (List.filter _ _). }
      cbn. by rewrite Z.eqb_refl.
    + intros Hdefault. rewrite get_products_by_category_unfold.
      unfold db'. cbn [categories products set_products]. rewrite Hc.
      unfold select_where. rewrite List.filter_app. cbn.
      by rewrite Z.eqb_refl, Hdefault.
Qed.

(** X29: no product is ever soft-deleted. For every id, caller and store
    the product soft-delete raises [TypeError] (it calls [between] without
    its two bounds while building its first statement), writes nothing, and
    fetching the product afterwards gives what it gave before. *)
Theorem delete_product_never_deletes product_id current_user db :
  (exists msg,
     delete_product product_id current_user db = (Raise (TypeError msg), db)) /\
  get_product product_id (store_after (delete_product product_id current_user) db)
  = get_product product_id db.
Proof.
  split; [apply delete_product_raises|].
  by rewrite delete_product_keeps_store.
Qed.

(** * Beyond the claims: the store invariants *)

Lemma wf_products_same_keys l db :
  wf_db db -> Product.id <$> l = Product.id <$> products db -> wf_db (set_products l db).
Proof.
  intros [Hc Hp Hr Hcs Hrs Hg] Hkeys. split; try done.
  cbn [products set_products]. by rewrite Hkeys.
Qed.

Lemma update_product_keeps_wf product_id product current_user db :
  wf_db db -> wf_db (store_after (update_product product_id product current_user) db).
Proof.
  intros Hwf. unfold store_after. rewrite update_product_unfold.
  assert (Hwf1 : wf_db (set_products
                          (update_where (fun p => Product.id p =? product_id)
                             (product_values product) (products db)) db)).
  { apply wf_products_same_keys; [done|]. by apply (update_where_keys Product.id). }
  destruct (first (select_where _ (products db))) as [db_product|]; [|done].
  destruct (negb _); [done|].
  destruct (first (select_where _ (categories db))); [|done].
  cbn zeta. by destruct (first _).
Qed.

Lemma create_product_keeps_wf new_id rating_default is_active_default product
    current_user db :
  wf_db db -> (forall p, p ∈ products db -> Product.id p <> new_id) ->
  wf_db (store_after
           (create_product new_id rating_default is_active_default product current_user)
           db).
Proof.
  intros Hwf Hfresh. unfold store_after. rewrite create_product_unfold.
  destruct (first (select_where _ (categories db))); [|done].
  cbn zeta.
  assert (Hwf1 : wf_db (set_products
            (products db ++
               [Product.mk new_id (ProductCreate.category_id product)
                  (User.id current_user) (ProductCreate.price product)
                  (ProductCreate.stock product) rating_default is_active_default]) db)).
  { destruct Hwf as [Hc Hp Hr Hcs Hrs Hg]. split; try done.
    cbn [products set_products]. rewrite fmap_app. apply NoDup_app.
    split; [done|]. split; [|apply NoDup_singleton].
    intros i Hi Hnew. cbn in Hnew. apply list_elem_of_singleton in Hnew as ->.
    apply list_elem_of_fmap in Hi as (p & Hid & Hin). by apply (Hfresh p Hin). }
  by destruct (first _).
Qed.

(** X11: unique keys, keys below their sequences and grades between 1 and 5
    are invariants of the store: every handler that writes keeps them,
    whether it returns or raises (the product create, when the key it is
    given is not yet taken). *)
Theorem handlers_keep_wf db :
  wf_db db ->
  (forall review current_user now,
     wf_db (store_after (create_review review current_user now) db)) /\
  (forall review_id current_user,
     wf_db (store_after (delete_review review_id current_user) db)) /\
  (forall product_id, wf_db (store_after (update_product_rating product_id) db)) /\
  (forall category, wf_db (store_after (create_category category) db)) /\
  (forall category_id category,
     wf_db (store_after (update_category category_id category) db)) /\
  (forall category_id, wf_db (store_after (delete_category category_id) db)) /\
  (forall product_id current_user,
     wf_db (store_after (delete_product product_id current_user) db)) /\
  (forall product_id product current_user,
     wf_db (store_after (update_product product_id product current_user) db)) /\
  (forall new_id rating_default is_active_default product current_user,
     (forall p, p ∈ products db -> Product.id p <> new_id) ->
     wf_db (store_after
              (create_product new_id rating_default is_active_default product
                 current_user) db)).
Proof.
  intros Hwf. repeat apply conj; intros.
  - by apply create_review_keeps_wf.
  - by apply delete_review_keeps_wf.
  - by apply update_product_rating_keeps_wf.
  - by apply create_category_keeps_wf.
  - by apply update_category_keeps_wf.
  - by rewrite delete_category_keeps_store.
  - by rewrite delete_product_keeps_store.
  - by apply update_product_keeps_wf.
  - by apply create_product_keeps_wf.
Qed.

Lemma handlers_keep_wf_witness : wf_db shop_reviewed /\ wf_db shop_moderated.
Proof.
  assert (H1 : wf_db (store_after (create_review (ReviewCreate.mk 1 None 4) buyer 10)
                        shop)).
  { apply (proj1 (handlers_keep_wf shop shop_wf)). }
  assert (H2 : wf_db (store_after
                        (create_review (ReviewCreate.mk 1 (Some "fine") 5) buyer 20)
                        (store_after (create_review (ReviewCreate.mk 1 None 4) buyer 10)
                           shop))).
  { apply (proj1 (handlers_keep_wf _ H1)). }
  assert (H3 : wf_db shop_reviewed).
  { apply (proj1 (handlers_keep_wf _ H2)). }
  split; [exact H3|].
  apply (proj1 (proj2 (handlers_keep_wf _ H3))).
Defined.

(** * The listings and the product create, run on the stores above *)

Lemma market_active_category : active_category 1 market.
Proof. eexists. split; [apply list_elem_of_here | done]. Qed.

Lemma market_inactive_category : ~ active_category 2 market.
Proof.
  intros (c & Hin & Hid & Hact). vm_compute in Hin.
  repeat (apply elem_of_cons in Hin as [->|Hin]; [discriminate|]).
  by apply elem_of_nil in Hin.
Qed.

Lemma products_get_reviews_spec_witness :
  Products.get_reviews 1 shop_delisted = (Raise ProductMissing, shop_delisted) /\
  exists listing,
    Products.get_reviews 1 shop_reviewed = (Ok listing, shop_reviewed) /\
    (forall r, r ∈ listing <->
               r ∈ reviews shop_reviewed /\ Review.is_active r = true /\
               Review.product_id r = 1) /\
    List.map Review.grade listing = active_grades 1 shop_reviewed.
Proof.
  split.
  - apply (proj1 (products_get_reviews_spec 1 shop_delisted)).
    exact shop_delisted_no_active_product.
  - apply (proj2 (products_get_reviews_spec 1 shop_reviewed)).
    exists (Product.mk 1 1 7 (10 # 1) 3 4 true).
    split; [vm_compute; repeat constructor | done].
Defined.

Lemma get_products_by_category_spec_witness :
  get_products_by_category 2 market = (Raise CategoryInactive, market) /\
  exists listing,
    get_products_by_category 1 market = (Ok listing, market) /\
    forall p, p ∈ listing <->
              p ∈ products market /\ Product.category_id p = 1 /\
              Product.is_active p = true.
Proof.
  split.
  - apply (proj1 (get_products_by_category_spec 2 market ltac:(unfold int4; lia))).
    exact market_inactive_category.
  - apply (proj2 (get_products_by_category_spec 1 market ltac:(unfold int4; lia))).
    exact market_active_category.
Defined.

Lemma create_product_spec_witness :
  create_product 5 0 true (ProductCreate.mk 2 (3 # 1) 1) seller market
  = (Raise CategoryInactive, market) /\
  create_product 5 0 true (ProductCreate.mk 1 (3 # 1) 1) seller market
  = (Ok (Product.mk 5 1 7 (3 # 1) 1 0 true),
     set_products (products market ++ [Product.mk 5 1 7 (3 # 1) 1 0 true]) market).
Proof.
  split.
  - apply (proj1 (create_product_spec 5 0 true (ProductCreate.mk 2 (3 # 1) 1)
                    seller market)).
    exact market_inactive_category.
  - apply (proj2 (create_product_spec 5 0 true (ProductCreate.mk 1 (3 # 1) 1)
                    seller market)).
    + exact market_active_category.
    + intros p Hin. vm_compute in Hin.
      repeat (apply elem_of_cons in Hin as [->|Hin]; [discriminate|]).
      by apply elem_of_nil in Hin.
Defined.
